(** * alicloud-sls-log: request signing, HTTP exchange and log payload

    A shallow embedding of [src/request.ts] (both request builders kept
    in that file: the earlier axios-based one and the fetch-based one
    that replaces it) and of [src/client.ts], followed by the properties
    of the specification.

    Conventions of the embedding:
    - a JavaScript string is a [string]; its characters are the code
      units below 256 (header names and values on the wire are such);
    - a JavaScript object used as a map ([Record<string, T>]) is the list
      of its own properties in enumeration order, keys pairwise distinct
      (the names of headers and of query parameters are not array
      indices, so that this order is the order of insertion);
    - a [number] that holds a timestamp or a count is an integer of [Z];
      where the code multiplies or divides beyond 2^53 the rounding of
      double precision is written out, and so is the overflow of a
      product beyond the largest double;
    - the clock ([new Date()], [Date.now()]) and the network exchange are
      explicit arguments;
    - the digests of crypto-js (MD5, HMAC-SHA1) and the protobuf encoder
      are parameters of the sections that use them. *)

From Stdlib Require Import ZArith NArith List Ascii String Bool Lia.
From Stdlib Require Import Permutation Sorted DecimalString Strings.Byte.
Import ListNotations.

Set Warnings "-register-all".

Local Open Scope list_scope.
Local Open Scope string_scope.

(** ** The JavaScript runtime the code relies on *)

Module Js.

(** *** Strings *)

Definition code (c : ascii) : N := N_of_ascii c.

(** The line feed of the template literals, [\n]. *)
Definition LF : string := String (ascii_of_N 10) "".

(** [String.prototype.toLowerCase] on code units below 256: the basic
    Latin capitals and the Latin-1 capitals U+00C0..U+00DE (U+00D7, the
    multiplication sign, apart) move up by 32. *)
Definition isUpper (c : ascii) : bool :=
  let n := code c in
  ((65 <=? n) && (n <=? 90))%N
  || ((192 <=? n) && (n <=? 222) && negb (n =? 215))%N.

Definition toLowerCaseChar (c : ascii) : ascii :=
  if isUpper c then ascii_of_N (code c + 32) else c.

Fixpoint toLowerCase (s : string) : string :=
  match s with
  | EmptyString => EmptyString
  | String c s' => String (toLowerCaseChar c) (toLowerCase s')
  end.

(** [String.prototype.toUpperCase], used by the code on hexadecimal
    digits only: the basic Latin small letters move down by 32. *)
Definition toUpperCaseChar (c : ascii) : ascii :=
  let n := code c in
  if ((97 <=? n) && (n <=? 122))%N then ascii_of_N (n - 32) else c.

Fixpoint toUpperCase (s : string) : string :=
  match s with
  | EmptyString => EmptyString
  | String c s' => String (toUpperCaseChar c) (toUpperCase s')
  end.

(** White space and line terminators below 256: TAB, LF, VT, FF, CR,
    SP and NBSP. *)
Definition isWhiteSpace (c : ascii) : bool :=
  let n := code c in
  (((9 <=? n) && (n <=? 13)) || (n =? 32) || (n =? 160))%N.

Fixpoint trimStart (s : string) : string :=
  match s with
  | EmptyString => EmptyString
  | String c s' => if isWhiteSpace c then trimStart s' else s
  end.

Fixpoint trimEnd (s : string) : string :=
  match s with
  | EmptyString => EmptyString
  | String c s' =>
      let r := trimEnd s' in
      if isWhiteSpace c && (r =? "") then "" else String c r
  end.

(** [String.prototype.trim]. *)
Definition trim (s : string) : string := trimEnd (trimStart s).

(** [s.startsWith(p)]. *)
Definition startsWith (s p : string) : bool := String.prefix p s.

(** [Array.prototype.join]. *)
Definition join (sep : string) (l : list string) : string := String.concat sep l.

(** [Number.prototype.toString] and [String(n)] for an integer (decimal
    digits, which is what JavaScript prints below 10^21). *)
Definition numberToString (n : Z) : string := NilZero.string_of_int (Z.to_int n).

(** *** Sorting

    [Array.prototype.sort()] without a comparator orders strings by
    their code units.  *)
Fixpoint insert (x : string) (l : list string) : list string :=
  match l with
  | [] => [x]
  | y :: l' => if (x <=? y) then x :: l else y :: insert x l'
  end.

Definition sort (l : list string) : list string := fold_right insert [] l.

(** The order of [sort]. *)
Definition le (a b : string) : Prop := (a <=? b) = true.

(** *** Values *)

(** The values a parsed JSON document or a query parameter can hold. *)
Inductive value : Type :=
| VUndefined
| VNull
| VBool (b : bool)
| VNumber (n : Z)
| VString (s : string)
| VArray (l : list value)
| VObject (o : list (string * value)).

(** [ToBoolean]: what [if (v)], [a && b] and [a || b] test. *)
Definition truthy (v : value) : bool :=
  match v with
  | VUndefined | VNull => false
  | VBool b => b
  | VNumber n => negb (n =? 0)%Z
  | VString s => negb (s =? "")
  | VArray _ | VObject _ => true
  end.

(** [String(v)]. *)
Fixpoint ToString (v : value) : string :=
  match v with
  | VUndefined => "undefined"
  | VNull => "null"
  | VBool true => "true"
  | VBool false => "false"
  | VNumber n => numberToString n
  | VString s => s
  | VArray l =>
      join "," (map (fun e => match e with
                              | VUndefined | VNull => ""
                              | _ => ToString e
                              end) l)
  | VObject _ => "[object Object]"
  end.

(** *** Objects used as maps *)

Section Objects.
Context {V : Type}.

(** Own properties in enumeration order. *)
Definition object := list (string * V).

(** [Object.keys(o)] and [Object.entries(o)]. *)
Definition keys (o : object) : list string := map fst o.
Definition entries (o : object) : list (string * V) := o.

(** [o[k]]: the property, [None] for [undefined]. *)
Fixpoint get (o : object) (k : string) : option V :=
  match o with
  | [] => None
  | (k', v) :: o' => if k' =? k then Some v else get o' k
  end.

(** [o[k] = v]: an existing property keeps its place, a new one goes
    last. *)
Fixpoint set (o : object) (k : string) (v : V) : object :=
  match o with
  | [] => [(k, v)]
  | (k', v') :: o' => if k' =? k then (k, v) :: o' else (k', v') :: set o' k v
  end.

(** [Object.assign(target, source)]; an [undefined] source is skipped. *)
Definition assign (target source : object) : object :=
  fold_left (fun t kv => set t (fst kv) (snd kv)) source target.

(** The keys of an object are pairwise distinct. *)
Definition wf (o : object) : Prop := NoDup (keys o).
End Objects.

Arguments object : clear implicits.

End Js.

(** ** Double-precision arithmetic on integers

    A [number] is an IEEE 754 binary64 value.  Every integer below 2^53
    in magnitude is such a value; the operations of [splitTimestamp]
    leave that range, so their rounding (to nearest, ties to even) is
    modelled here on the integers they are applied to. *)

Module Double.

Local Open Scope Z_scope.

(** [n / d] rounded to the nearest integer, ties to the even one
    ([0 <= n], [0 < d]). *)
Definition roundDiv (n d : Z) : Z :=
  let q := n / d in
  let r := n mod d in
  if 2 * r <? d then q
  else if d <? 2 * r then q + 1
  else if Z.even q then q else q + 1.

(** The double nearest to the integer [n]: [n] itself while it has at
    most 53 significant bits, otherwise its 53 leading bits rounded. *)
Definition round (n : Z) : Z :=
  let e := Z.log2 (Z.abs n) - 52 in
  if e <=? 0 then n
  else Z.sgn n * (roundDiv (Z.abs n) (2 ^ e) * 2 ^ e).

(** A number as the arithmetic below gives it: an integer, an infinity
    with its sign, or [NaN].  Zero has no sign here. *)
Inductive number :=
| Num (n : Z)
| Inf (negative : bool)
| NaN.

(** The largest double is just below [2 ^ 1024]: a result that rounds
    beyond it is an infinity. *)
Definition finite (n : Z) : number :=
  if Z.abs n <? 2 ^ 1024 then Num n else Inf (n <? 0).

(** [a * b] on doubles that hold integers. *)
Definition mul (a b : number) : number :=
  match a, b with
  | Num x, Num y => finite (round (x * y))
  | NaN, _ | _, NaN => NaN
  | Inf s, Num y | Num y, Inf s =>
      if y =? 0 then NaN else Inf (xorb s (y <? 0))
  | Inf s, Inf s' => Inf (xorb s s')
  end.

(** [Math.floor] leaves these numbers as they are. *)
Definition floor (a : number) : number := a.

(** [Math.floor(a / b)] for [0 < b <= a]: the quotient is first rounded
    to a double with 53 significant bits, then floored. *)
Definition floorDiv (a b : Z) : Z :=
  let s := 52 - Z.log2 (a / b) in
  if 0 <=? s then roundDiv (a * 2 ^ s) b / 2 ^ s
  else roundDiv a (b * 2 ^ (- s)) * 2 ^ (- s).

(** [a % b] on doubles that hold integers: exact, with the sign of [a];
    [NaN] for an infinite [a] and for [b] zero. *)
Definition rem (a b : number) : number :=
  match a, b with
  | Num x, Num y => if y =? 0 then NaN else Num (Z.rem x y)
  | Num x, Inf _ => Num x
  | _, _ => NaN
  end.

(** [n] is a double: rounding leaves it as it is. *)
Definition exact (n : Z) : Prop := round n = n.

End Double.

(** An integer is read as the number that holds it. *)
Coercion Double.Num : Z >-> Double.number.

(** ** The encoders of crypto-js *)

Module Enc.

Definition hexDigit (n : N) : ascii :=
  ascii_of_N (if (n <? 10)%N then 48 + n else 87 + n).

(** [CryptoJS.enc.Hex]: two lower-case digits per byte. *)
Fixpoint Hex (bs : list byte) : string :=
  match bs with
  | [] => ""
  | b :: bs' =>
      let n := Byte.to_N b in
      String (hexDigit (n / 16)) (String (hexDigit (n mod 16)) (Hex bs'))
  end.

Definition b64Digit (n : N) : ascii :=
  ascii_of_N (if (n <? 26)%N then 65 + n
              else if (n <? 52)%N then 71 + n
              else if (n <? 62)%N then n - 4
              else if (n =? 62)%N then 43 else 47).

(** [CryptoJS.enc.Base64]: three bytes to four digits, padded with [=]. *)
Fixpoint Base64 (bs : list byte) : string :=
  match bs with
  | [] => ""
  | [a] =>
      let x := Byte.to_N a in
      String (b64Digit (x / 4))
        (String (b64Digit (x mod 4 * 16)) "==")
  | [a; b] =>
      let x := Byte.to_N a in
      let y := Byte.to_N b in
      String (b64Digit (x / 4))
        (String (b64Digit (x mod 4 * 16 + y / 16))
           (String (b64Digit (y mod 16 * 4)) "="))
  | a :: b :: c :: bs' =>
      let x := Byte.to_N a in
      let y := Byte.to_N b in
      let z := Byte.to_N c in
      String (b64Digit (x / 4))
        (String (b64Digit (x mod 4 * 16 + y / 16))
           (String (b64Digit (y mod 16 * 4 + z / 64))
              (String (b64Digit (z mod 64)) (Base64 bs'))))
  end.

End Enc.

(** ** The digests of crypto-js

    MD5 (RFC 1321), SHA-1 (RFC 3174) and HMAC (RFC 2104) on bytes held as
    integers below 256, with 32-bit words as integers below 2^32. *)

Module Digest.

Local Open Scope Z_scope.
Local Open Scope list_scope.

Definition w32 (x : Z) : Z := x mod 2 ^ 32.
Definition rotl (n x : Z) : Z := w32 (Z.lor (Z.shiftl x n) (Z.shiftr x (32 - n))).
Definition not32 (x : Z) : Z := 2 ^ 32 - 1 - x.

(** The bytes of a 64-bit length and of a 32-bit word, most significant
    first. *)
Fixpoint bytesBE (n : nat) (x : Z) : list Z :=
  match n with
  | O => []
  | S n' => (x / 256 ^ Z.of_nat n') mod 256 :: bytesBE n' x
  end.

Definition bytesLE (n : nat) (x : Z) : list Z := rev (bytesBE n x).

Fixpoint wordBE (bs : list Z) (acc : Z) : Z :=
  match bs with
  | [] => acc
  | b :: bs' => wordBE bs' (acc * 256 + b)
  end.

Definition wordLE (bs : list Z) : Z := wordBE (rev bs) 0.

(** The message followed by 0x80, zeros up to 56 modulo 64, and the
    length in bits on 8 bytes. *)
Definition pad (lenBytes : Z -> list Z) (msg : list Z) : list Z :=
  let n := Z.of_nat (List.length msg) in
  let zeros := Z.to_nat ((55 - n) mod 64) in
  msg ++ 128 :: repeat 0 zeros ++ lenBytes (8 * n).

(** Cut into groups of [k] elements ([fuel] bounds the number of
    groups). *)
Fixpoint chunks {A} (fuel k : nat) (l : list A) : list (list A) :=
  match fuel with
  | O => []
  | S fuel' =>
      match l with
      | [] => []
      | _ => firstn k l :: chunks fuel' k (skipn k l)
      end
  end.

Definition blocks (word : list Z -> Z) (bs : list Z) : list (list Z) :=
  map (fun blk => map word (chunks 16 4 blk)) (chunks (List.length bs) 64 bs).

(** *** SHA-1 *)

Fixpoint schedule (n : nat) (w : list Z) : list Z :=
  (* [w] holds the words so far, the latest first *)
  match n with
  | O => w
  | S n' =>
      let x := Z.lxor (Z.lxor (nth 2 w 0) (nth 7 w 0))
                 (Z.lxor (nth 13 w 0) (nth 15 w 0)) in
      schedule n' (rotl 1 x :: w)
  end.

Definition sha1Round (i : Z) (st : Z * Z * Z * Z * Z) (wi : Z) :=
  let '(a, b, c, d, e) := st in
  let '(f, k) :=
    if i <? 20 then (Z.lor (Z.land b c) (Z.land (not32 b) d), 0x5A827999)
    else if i <? 40 then (Z.lxor (Z.lxor b c) d, 0x6ED9EBA1)
    else if i <? 60 then
      (Z.lor (Z.lor (Z.land b c) (Z.land b d)) (Z.land c d), 0x8F1BBCDC)
    else (Z.lxor (Z.lxor b c) d, 0xCA62C1D6) in
  (w32 (rotl 5 a + f + e + k + wi), a, rotl 30 b, c, d).

Fixpoint sha1Rounds (i : Z) (ws : list Z) (st : Z * Z * Z * Z * Z) :=
  match ws with
  | [] => st
  | wi :: ws' => sha1Rounds (i + 1) ws' (sha1Round i st wi)
  end.

Definition sha1Block (h : Z * Z * Z * Z * Z) (blk : list Z) :=
  let ws := rev (schedule 64 (rev blk)) in
  let '(a, b, c, d, e) := sha1Rounds 0 ws h in
  let '(h0, h1, h2, h3, h4) := h in
  (w32 (h0 + a), w32 (h1 + b), w32 (h2 + c), w32 (h3 + d), w32 (h4 + e)).

Definition sha1 (msg : list Z) : list Z :=
  let '(h0, h1, h2, h3, h4) :=
    fold_left sha1Block (blocks (fun bs => wordBE bs 0) (pad (bytesBE 8) msg))
      (0x67452301, 0xEFCDAB89, 0x98BADCFE, 0x10325476, 0xC3D2E1F0) in
  flat_map (bytesBE 4) [h0; h1; h2; h3; h4].

(** HMAC over SHA-1 (block size 64). *)
Definition hmacSha1 (key msg : list Z) : list Z :=
  let key := if 64 <? Z.of_nat (List.length key) then sha1 key else key in
  let key := key ++ repeat 0 (64 - List.length key) in
  sha1 (map (Z.lxor 0x5C) key ++ sha1 (map (Z.lxor 0x36) key ++ msg)).

(** *** MD5 *)

Definition md5K : list Z :=
  [0xd76aa478; 0xe8c7b756; 0x242070db; 0xc1bdceee; 0xf57c0faf; 0x4787c62a;
   0xa8304613; 0xfd469501; 0x698098d8; 0x8b44f7af; 0xffff5bb1; 0x895cd7be;
   0x6b901122; 0xfd987193; 0xa679438e; 0x49b40821; 0xf61e2562; 0xc040b340;
   0x265e5a51; 0xe9b6c7aa; 0xd62f105d; 0x02441453; 0xd8a1e681; 0xe7d3fbc8;
   0x21e1cde6; 0xc33707d6; 0xf4d50d87; 0x455a14ed; 0xa9e3e905; 0xfcefa3f8;
   0x676f02d9; 0x8d2a4c8a; 0xfffa3942; 0x8771f681; 0x6d9d6122; 0xfde5380c;
   0xa4beea44; 0x4bdecfa9; 0xf6bb4b60; 0xbebfbc70; 0x289b7ec6; 0xeaa127fa;
   0xd4ef3085; 0x04881d05; 0xd9d4d039; 0xe6db99e5; 0x1fa27cf8; 0xc4ac5665;
   0xf4292244; 0x432aff97; 0xab9423a7; 0xfc93a039; 0x655b59c3; 0x8f0ccc92;
   0xffeff47d; 0x85845dd1; 0x6fa87e4f; 0xfe2ce6e0; 0xa3014314; 0x4e0811a1;
   0xf7537e82; 0xbd3af235; 0x2ad7d2bb; 0xeb86d391].

Definition md5S : list Z :=
  [7; 12; 17; 22; 7; 12; 17; 22; 7; 12; 17; 22; 7; 12; 17; 22;
   5; 9; 14; 20; 5; 9; 14; 20; 5; 9; 14; 20; 5; 9; 14; 20;
   4; 11; 16; 23; 4; 11; 16; 23; 4; 11; 16; 23; 4; 11; 16; 23;
   6; 10; 15; 21; 6; 10; 15; 21; 6; 10; 15; 21; 6; 10; 15; 21].

Definition md5Round (m : list Z) (st : Z * Z * Z * Z) (iks : Z * (Z * Z)) :=
  let '(a, b, c, d) := st in
  let '(i, (k, s)) := iks in
  let '(f, g) :=
    if i <? 16 then (Z.lor (Z.land b c) (Z.land (not32 b) d), i)
    else if i <? 32 then
      (Z.lor (Z.land d b) (Z.land (not32 d) c), (5 * i + 1) mod 16)
    else if i <? 48 then (Z.lxor (Z.lxor b c) d, (3 * i + 5) mod 16)
    else (Z.lxor c (Z.lor b (not32 d)), (7 * i) mod 16) in
  let f := w32 (f + a + k + nth (Z.to_nat g) m 0) in
  (d, w32 (b + rotl s f), b, c).

Definition md5Block (h : Z * Z * Z * Z) (blk : list Z) :=
  let idx := map Z.of_nat (seq 0 64) in
  let '(a, b, c, d) :=
    fold_left (md5Round blk) (combine idx (combine md5K md5S)) h in
  let '(a0, b0, c0, d0) := h in
  (w32 (a0 + a), w32 (b0 + b), w32 (c0 + c), w32 (d0 + d)).

Definition md5 (msg : list Z) : list Z :=
  let '(a, b, c, d) :=
    fold_left md5Block (blocks wordLE (pad (bytesLE 8) msg))
      (0x67452301, 0xefcdab89, 0x98badcfe, 0x10325476) in
  flat_map (bytesLE 4) [a; b; c; d].

End Digest.

(** ** The libraries the code imports

    crypto-js provides the digests (the results are byte strings, which
    the code then prints with [Enc.Hex] or [Enc.Base64]); qs builds the
    query string of the URL. *)

Class CryptoJS := {
  MD5 : list byte -> list byte;
  HmacSHA1 : string -> string -> list byte
}.

Class Qs := {
  stringify : option (Js.object Js.value) -> string
}.

(** crypto-js itself: [CryptoJS.MD5] of the bytes of a [Uint8Array], and
    [CryptoJS.HmacSHA1(message, key)] of two strings, which it reads as
    UTF-8. *)
Module CryptoJSLib.

Definition byteOfZ (z : Z) : byte :=
  match Byte.of_N (Z.to_N z) with
  | Some b => b
  | None => x00
  end.

Definition zOfByte (b : byte) : Z := Z.of_N (Byte.to_N b).

(** UTF-8 of a string of code units below 256. *)
Fixpoint utf8 (s : string) : list Z :=
  match s with
  | EmptyString => []
  | String c s' =>
      let n := Z.of_N (Js.code c) in
      if (n <? 128)%Z then n :: utf8 s'
      else (192 + n / 64)%Z :: (128 + n mod 64)%Z :: utf8 s'
  end.

#[export] Instance cryptoJS : CryptoJS := {
  MD5 bs := map byteOfZ (Digest.md5 (map zOfByte bs));
  HmacSHA1 message key := map byteOfZ (Digest.hmacSha1 (utf8 key) (utf8 message))
}.

End CryptoJSLib.

(** qs itself, with its default options: [undefined] is skipped, [null]
    gives an empty value, arrays and objects are flattened with bracketed
    keys, keys and values are percent-encoded. *)
Module QsLib.

Import Js.

Definition unreserved (c : ascii) : bool :=
  let n := code c in
  (((48 <=? n) && (n <=? 57)) || ((65 <=? n) && (n <=? 90))
   || ((97 <=? n) && (n <=? 122))
   || (n =? 45) || (n =? 46) || (n =? 95) || (n =? 126))%N.

Definition percent (n : Z) : string :=
  "%" ++ toUpperCase (Enc.Hex [CryptoJSLib.byteOfZ n]).

Fixpoint encode (s : string) : string :=
  match s with
  | EmptyString => EmptyString
  | String c s' =>
      (if unreserved c then String c ""
       else String.concat "" (map percent (CryptoJSLib.utf8 (String c ""))))
      ++ encode s'
  end.

Fixpoint pairs (prefix : string) (v : value) : list string :=
  match v with
  | VUndefined => []
  | VNull => [encode prefix ++ "="]
  | VArray l =>
      (fix items (i : Z) (l : list value) : list string :=
         match l with
         | [] => []
         | e :: l' =>
             (pairs (prefix ++ "[" ++ numberToString i ++ "]") e
              ++ items (i + 1)%Z l')%list
         end) 0%Z l
  | VObject o =>
      (fix props (o : list (string * value)) : list string :=
         match o with
         | [] => []
         | (k, e) :: o' => (pairs (prefix ++ "[" ++ k ++ "]") e ++ props o')%list
         end) o
  | _ => [encode prefix ++ "=" ++ encode (ToString v)]
  end.

#[export] Instance qs : Qs := {
  stringify queries :=
    match queries with
    | None => ""
    | Some o => join "&" (flat_map (fun kv => pairs (fst kv) (snd kv)) o)
    end
}.

End QsLib.

(** ** request.ts: what the two request builders share *)

Module Request.

Import Js.

Inductive Method := POST | GET | PUT | DELETE.

Definition methodString (m : Method) : string :=
  match m with
  | POST => "POST"
  | GET => "GET"
  | PUT => "PUT"
  | DELETE => "DELETE"
  end.

(** [SafeRequestOptions]: of the transport options only the timeout
    (milliseconds) is kept; the fetch-based builder reads no other, the
    axios-based one hands the others to axios as they are.  The object
    may have no [timeout] property ([None]), have one that holds
    [undefined] ([Some None]), or have one that holds a number. *)
Record SafeRequestOptions := {
  timeout : option (option Z)
}.

Record RequestConfig := {
  endpoint : string;
  accessKeyID : string;
  accessKeySecret : string;
  stsToken : option string;
  globalRequestOptions : option SafeRequestOptions
}.

Record RequestOptions := {
  method : Method;
  path : string;
  queries : option (object value);
  body : option (list byte);
  headers : option (object string);
  projectName : option string;
  requestOptions : option SafeRequestOptions
}.

(** [DEFAULT_REQUEST_OPTIONS.timeout]. *)
Definition DEFAULT_TIMEOUT : Z := 3000.

(** What the exchange hands to the transport. *)
Record HttpRequest := {
  req_url : string;
  req_method : Method;
  req_body : option (list byte);
  req_headers : object string;
  req_timeout : option Z          (* [None]: [undefined] is handed over *)
}.

(** What can be thrown.  An [AliCloudSLSLogError] is held by its
    properties: the [message] that [Error] keeps, and the [code] and the
    [requestid] as the constructor received them; its [name] is
    [`${code}Error`]. *)
Inductive exn :=
| AliCloudSLSLogError (message : string) (code requestid : value)
| TimeoutError
| TypeError
| SyntaxError
| TransportError (name : string).

Definition errorName (e : exn) : string :=
  match e with
  | AliCloudSLSLogError _ code _ => ToString code ++ "Error"
  | TimeoutError => "Error"
  | TypeError => "TypeError"
  | SyntaxError => "SyntaxError"
  | TransportError name => name
  end.

(** [new AliCloudSLSLogError(message, code, requestid)]: the constructor
    calls [super(message)], and [Error] sets no message for [undefined]
    (the property then reads as the empty string) and the text of any
    other value. *)
Definition newAliCloudSLSLogError (message code requestid : value) : exn :=
  AliCloudSLSLogError
    (match message with
     | VUndefined => ""
     | _ => ToString message
     end)
    code requestid.

(** A computation that returns or throws. *)
Inductive completion (A : Type) :=
| Return (a : A)
| Throw (e : exn).

Arguments Return {A} a.
Arguments Throw {A} e.

Definition bind {A B} (c : completion A) (k : A -> completion B) : completion B :=
  match c with
  | Return a => k a
  | Throw e => Throw e
  end.

(** [try { c } catch (error) { throw h(error) }]. *)
Definition tryCatch {A} (c : completion A) (h : exn -> exn) : completion A :=
  match c with
  | Return a => Return a
  | Throw e => Throw (h e)
  end.

(** [v.k] for a property name [k] that no prototype defines: a
    [TypeError] on [null] and [undefined], the own property of an object,
    [undefined] otherwise. *)
Definition prop (v : value) (k : string) : completion value :=
  match v with
  | VUndefined | VNull => Throw TypeError
  | VObject o => Return (match get o k with Some x => x | None => VUndefined end)
  | _ => Return VUndefined
  end.

(** What the exchange resolves to: the raw bytes of the response or its
    parsed JSON. *)
Inductive payload :=
| RawBytes (bs : list byte)
| Parsed (v : value).

Definition updateCredential (config : RequestConfig)
    (accessKeyID' accessKeySecret' : string) (stsToken' : option string)
  : RequestConfig :=
  {| endpoint := endpoint config;
     accessKeyID := accessKeyID';
     accessKeySecret := accessKeySecret';
     stsToken := stsToken';
     globalRequestOptions := globalRequestOptions config |}.

Definition buildQueries `{Qs} (queries : option (object value)) : string :=
  let str := stringify queries in
  if str =? "" then "" else "?" ++ str.

Definition buildProjectName (projectName : option string) : string :=
  match projectName with
  | Some p => if p =? "" then "" else p ++ "."
  | None => ""
  end.

Definition formatString (v : value) : string :=
  match v with
  | VUndefined => ""
  | _ => ToString v
  end.

Definition formatResource (path : string) (queries : option (object value)) : string :=
  match queries with
  | None => path
  | Some queries =>
      let keys := keys queries in
      match keys with
      | [] => path
      | _ =>
          let queryStr :=
            join "&"
              (map (fun key =>
                      key ++ "=" ++ formatString
                        (match get queries key with
                         | Some v => v
                         | None => VUndefined
                         end))
                 (sort keys)) in
          path ++ "?" ++ queryStr
      end
  end.

(** The first statements of [do] are the same in both builders; they
    are given names here.  The headers every exchange starts from;
    [date] is [new Date().toUTCString()]. *)
Definition defaultHeaders (date : string) : object string :=
  [("content-type", "application/json");
   ("date", date);
   ("x-log-apiversion", "0.6.0");
   ("x-log-signaturemethod", "hmac-sha1")].

(** [Object.assign(defaults, options.headers)]. *)
Definition mergeHeaders (date : string) (headers : option (object string))
  : object string :=
  match headers with
  | Some h => assign (defaultHeaders date) h
  | None => defaultHeaders date
  end.

(** [headers[key]!] for a key taken from [Object.keys(headers)]. *)
Definition at_ (headers : object string) (key : string) : string :=
  match get headers key with
  | Some v => v
  | None => ""
  end.

(** [if (this.config.stsToken) headers["x-acs-security-token"] = ...]. *)
Definition withToken (config : RequestConfig) (headers : object string)
  : object string :=
  match stsToken config with
  | Some token =>
      if token =? "" then headers
      else set headers "x-acs-security-token" token
  | None => headers
  end.

(** [if (options.body) { content-length, content-md5 }]; a [Uint8Array]
    is an object, so even an empty body takes the branch. *)
Definition withBody `{CryptoJS} (body : option (list byte))
    (headers : object string) : object string :=
  match body with
  | Some b =>
      let headers := set headers "content-length"
                       (numberToString (Z.of_nat (List.length b))) in
      set headers "content-md5" (toUpperCase (Enc.Hex (MD5 b)))
  | None => headers
  end.

End Request.

(** ** request.ts, the axios-based builder (the first [Request] of the
    file; its exchange logs the URL with [console.warn], which is left
    out) *)

Module Axios.

Import Js Request.

Record Response := {
  res_headers : object string;   (* header names in lower case *)
  res_data : value
}.

Inductive settled :=
| Resolved (response : Response)
| Rejected (e : exn).

Definition getCanonicalizedHeaders (headers : object string) : string :=
  join LF
    (map (fun key => key ++ ":" ++ trim (at_ headers key))
       (sort
          (filter (fun key => startsWith key "x-log-" || startsWith key "x-acs-")
             (keys headers)))).

(** The local [signString] of [sign]. *)
Definition signString (method resource : string) (headers : object string)
  : string :=
  let contentMD5 :=
    match get headers "content-md5" with Some v => v | None => "" end in
  let contentType :=
    match get headers "content-type" with Some v => v | None => "" end in
  let date :=
    match get headers "date" with Some v => v | None => "undefined" end in
  let canonicalizedHeaders := getCanonicalizedHeaders headers in
  method ++ LF ++ contentMD5 ++ LF ++ contentType ++ LF
  ++ date ++ LF ++ canonicalizedHeaders ++ LF ++ resource.

Definition sign `{CryptoJS} (config : RequestConfig)
    (method resource : string) (headers : object string) : string :=
  let signature :=
    Enc.Base64 (HmacSHA1 (signString method resource headers)
                  (accessKeySecret config)) in
  "LOG " ++ accessKeyID config ++ ":" ++ signature.

(** The transport options are spread in the order default, client,
    call: the [timeout] handed to axios is the one of the last object
    that has such a property, be it [undefined]. *)
Definition timeoutOf (config : RequestConfig) (options : RequestOptions)
  : option Z :=
  match requestOptions options with
  | Some {| timeout := Some v |} => v
  | _ =>
      match globalRequestOptions config with
      | Some {| timeout := Some v |} => v
      | _ => Some DEFAULT_TIMEOUT
      end
  end.

(** [do], up to the call of axios. *)
Definition do_request `{CryptoJS} `{Qs} (date : string) (config : RequestConfig)
    (options : RequestOptions) : HttpRequest :=
  let headers := mergeHeaders date (headers options) in
  let headers := withToken config headers in
  let headers := withBody (body options) headers in
  let headers :=
    set headers "authorization"
      (sign config (methodString (method options))
         (formatResource (path options) (queries options)) headers) in
  let url := "http://" ++ buildProjectName (projectName options)
             ++ endpoint config ++ path options
             ++ buildQueries (queries options) in
  {| req_url := url;
     req_method := method options;
     req_body := body options;
     req_headers := headers;
     req_timeout := timeoutOf config options |}.

(** [do], from the answer of axios on. *)
Definition do_response (r : settled) : completion value :=
  match r with
  | Rejected e => Throw e
  | Resolved response =>
      let contentType :=
        match get (res_headers response) "content-type" with
        | Some c => c
        | None => ""
        end in
      if negb (startsWith contentType "application/json") then
        Return (res_data response)
      else
        let body := res_data response in
        bind (prop body "errorCode") (fun errorCode =>
        bind (if truthy errorCode then prop body "errorMessage"
              else Return errorCode) (fun test =>
        if truthy test then
          bind (prop body "errorMessage") (fun errorMessage =>
          Throw (newAliCloudSLSLogError errorMessage errorCode
                   (match get (res_headers response) "x-log-requestid" with
                    | Some id => VString id
                    | None => VUndefined
                    end)))
        else
          bind (prop body "Error") (fun Error =>
          if truthy Error then
            bind (prop Error "Message") (fun Message =>
            bind (prop Error "Code") (fun Code =>
            bind (prop Error "RequestId") (fun RequestId =>
            Throw (newAliCloudSLSLogError Message Code RequestId))))
          else Return body)))
  end.

Definition do `{CryptoJS} `{Qs} (axios : HttpRequest -> settled)
    (date : string) (config : RequestConfig) (options : RequestOptions)
  : completion value :=
  do_response (axios (do_request date config options)).

End Axios.

(** ** request.ts, the fetch-based builder (the second [Request] of the
    file, which replaces axios by [fetch]) *)

Module Fetch.

Import Js Request.

Record Response := {
  res_headers : object string;        (* [Headers]: names in lower case *)
  res_arrayBuffer : list byte;
  res_json : option value             (* [None]: the body is not JSON *)
}.

Inductive settled :=
| Resolved (response : Response)
| Rejected (e : exn).

Definition getCanonicalizedHeaders (headers : object string) : string :=
  let canonicalizedKeys :=
    sort
      (filter (fun key =>
                 let lowerKey := toLowerCase key in
                 startsWith lowerKey "x-log-" || startsWith lowerKey "x-acs-")
         (keys headers)) in
  match canonicalizedKeys with
  | [] => ""
  | _ =>
      join LF
        (map (fun key => toLowerCase key ++ ":" ++ trim (at_ headers key))
           canonicalizedKeys)
  end.

(** The local [getHeader] of [sign]: the first entry whose lower-cased
    name is the lower-cased [key]; [v || ""] is [v] on strings. *)
Fixpoint getHeader (headers : object string) (key : string) : string :=
  match headers with
  | [] => ""
  | (k, v) :: headers' =>
      if toLowerCase k =? toLowerCase key then v else getHeader headers' key
  end.

(** The local [signString] of [sign]. *)
Definition signString (method resource : string) (headers : object string)
  : string :=
  let contentMD5 := getHeader headers "content-md5" in
  let contentType := getHeader headers "content-type" in
  let date := getHeader headers "date" in
  let canonicalizedHeaders := getCanonicalizedHeaders headers in
  method ++ LF ++ contentMD5 ++ LF ++ contentType ++ LF
  ++ date ++ LF ++ canonicalizedHeaders ++ LF ++ resource.

Definition sign `{CryptoJS} (config : RequestConfig)
    (method resource : string) (headers : object string) : string :=
  let signature :=
    Enc.Base64 (HmacSHA1 (signString method resource headers)
                  (accessKeySecret config)) in
  "LOG " ++ accessKeyID config ++ ":" ++ signature.

(** [a?.timeout || b?.timeout || DEFAULT_REQUEST_OPTIONS.timeout || 3000]:
    a timeout of 0 counts as not given. *)
Definition timeoutOf (config : RequestConfig) (options : RequestOptions) : Z :=
  let given (o : option SafeRequestOptions) :=
    match o with
    | Some {| timeout := Some (Some t) |} =>
        if (t =? 0)%Z then None else Some t
    | _ => None
    end in
  match given (requestOptions options) with
  | Some t => t
  | None =>
      match given (globalRequestOptions config) with
      | Some t => t
      | None => DEFAULT_TIMEOUT
      end
  end.

(** The local [resource] of [do]. *)
Definition resourceOf (options : RequestOptions) : string :=
  match method options, queries options with
  | GET, Some q => formatResource (path options) (Some q)
  | _, _ => path options
  end.

(** [do], up to the call of [fetch]. *)
Definition do_request `{CryptoJS} `{Qs} (date : string) (config : RequestConfig)
    (options : RequestOptions) : HttpRequest :=
  let headers := mergeHeaders date (headers options) in
  let headers := withToken config headers in
  let headers := withBody (body options) headers in
  let resource := resourceOf options in
  let headers :=
    set headers "authorization"
      (sign config (methodString (method options)) resource headers) in
  let url := "https://" ++ buildProjectName (projectName options)
             ++ endpoint config ++ path options
             ++ buildQueries (queries options) in
  {| req_url := url;
     req_method := method options;
     req_body := body options;
     req_headers := headers;
     req_timeout := Some (timeoutOf config options) |}.

(** The [catch] clause of [do]. *)
Definition onError (error : exn) : exn :=
  if errorName error =? "AbortError" then TimeoutError else error.

(** [do], from the answer of [fetch] on: the [try] block and its
    [catch]. *)
Definition do_response (r : settled) : completion payload :=
  tryCatch
    (match r with
     | Rejected e => Throw e
     | Resolved response =>
         let contentType :=
           match get (res_headers response) "content-type" with
           | Some c => c
           | None => ""
           end in
         if negb (startsWith contentType "application/json") then
           Return (RawBytes (res_arrayBuffer response))
         else
           match res_json response with
           | None => Throw SyntaxError
           | Some body =>
               bind (prop body "errorCode") (fun errorCode =>
               bind (if truthy errorCode then prop body "errorMessage"
                     else Return errorCode) (fun test =>
               if truthy test then
                 bind (prop body "errorMessage") (fun errorMessage =>
                 Throw (newAliCloudSLSLogError errorMessage errorCode
                          (match get (res_headers response) "x-log-requestid" with
                           | Some id => VString id
                           | None => VNull
                           end)))
               else
                 bind (prop body "Error") (fun Error =>
                 if truthy Error then
                   bind (prop Error "Message") (fun Message =>
                   bind (prop Error "Code") (fun Code =>
                   bind (prop Error "RequestId") (fun RequestId =>
                   Throw (newAliCloudSLSLogError Message Code RequestId))))
                 else Return (Parsed body))))
           end
     end)
    onError.

Definition do `{CryptoJS} `{Qs} (fetch : HttpRequest -> settled)
    (date : string) (config : RequestConfig) (options : RequestOptions)
  : completion payload :=
  do_response (fetch (do_request date config options)).

End Fetch.

(** ** client.ts *)

Module Client.

Import Js Request.
Local Open Scope Z_scope.

Record LogEntity := {
  content : object value;
  timestamp : option Z;
  timestampNsPart : option Z
}.

Record LogData := {
  logs : list LogEntity;
  tags : option (list (object string));
  topic : option string;
  source : option string
}.

(** The messages of the protobuf schema, as the payload object fills
    them. *)
Record Content := { Key : string; Value : value }.

Record Log := {
  Time : Z;
  TimeNs : Double.number;
  Contents : list Content
}.

Record LogTag := { TagKey : string; TagValue : string }.

Record LogGroup := {
  Logs : list Log;
  LogTags : option (list LogTag);
  Topic : option string;
  Source : option string
}.

(** protobufjs: [LogGroupProto.encode(LogGroupProto.create(payload)).finish()],
    which returns the bytes or throws (it does on content values it
    cannot write as strings). *)
Class Protobuf := {
  encode : LogGroup -> completion (list byte)
}.

(** The seconds are a finite number whatever the time; the nanoseconds
    are [NaN] once the product has overflowed. *)
Record Split := { seconds : Z; nanoseconds : Double.number }.

(** [splitTimestamp]; [now] is [Date.now()].  [timestamp || Date.now()]
    takes the clock for [undefined] and for 0.  The timestamp and the
    clock are integers that are doubles (every integer below 2^53 in
    magnitude is one). *)
Definition splitTimestamp (now : Z) (timestamp : option Z) : Split :=
  let time :=
    match timestamp with
    | Some t => if t =? 0 then now else t
    | None => now
    end in
  if time <? 1000000000000 then
    {| seconds := time; nanoseconds := 0 |}
  else
    {| seconds := Double.floorDiv time 1000;
       nanoseconds :=
         Double.rem (Double.floor (Double.mul (Double.mul time 1000) 1000))
           1000000000 |}.

(** The callback of [data.logs.map] in [putLogs]. *)
Definition toLog (now : Z) (log : LogEntity) : Log :=
  let s := splitTimestamp now (timestamp log) in
  {| Time := seconds s;
     TimeNs :=
       match timestampNsPart log with
       | Some ns => if ns =? 0 then nanoseconds s else ns
       | None => nanoseconds s
       end;
     Contents := map (fun kv => {| Key := fst kv; Value := snd kv |})
                   (entries (content log)) |}.

(** [data.logs.map(...)], the clock being read once per entry:
    [clock i] is the reading for the entry of index [i]. *)
Fixpoint toLogs (clock : nat -> Z) (i : nat) (logs : list LogEntity) : list Log :=
  match logs with
  | [] => []
  | log :: logs' => toLog (clock i) log :: toLogs clock (S i) logs'
  end.

(** The [payload] object of [putLogs]. *)
Definition toPayload (clock : nat -> Z) (data : LogData) : LogGroup :=
  {| Logs := toLogs clock 0 (logs data);
     LogTags :=
       match tags data with
       | Some ((_ :: _) as ts) =>
           Some (flat_map
                   (fun tag => map (fun kv => {| TagKey := fst kv; TagValue := snd kv |})
                                 (entries tag))
                   ts)
       | _ => None
       end;
     Topic :=
       match topic data with
       | Some t => if (t =? "")%string then None else Some t
       | None => None
       end;
     Source :=
       match source data with
       | Some s => if (s =? "")%string then None else Some s
       | None => None
       end |}.

(** [putLogs], up to the call of [this.do]: the options it passes, or
    what the encoder throws, in which case [this.do] is not called. *)
Definition putLogs `{Protobuf} (clock : nat -> Z) (projectName logstoreName : string)
    (data : LogData) (requestOptions : option SafeRequestOptions)
  : completion RequestOptions :=
  bind (encode (toPayload clock data)) (fun body =>
  Return
    {| method := POST;
       path := ("/logstores/" ++ logstoreName ++ "/shards/lb")%string;
       queries := None;
       body := Some body;
       headers :=
         Some [("x-log-bodyrawsize", numberToString (Z.of_nat (List.length body)));
               ("content-type", "application/x-protobuf")%string];
       projectName := Some projectName;
       requestOptions := requestOptions |}).

(** [query.from] and [query.to] of a [GetLogsQuery] held as an object. *)
Definition numberAt (query : object value) (k : string) : option Z :=
  match get query k with
  | Some (VNumber n) => Some n
  | _ => None
  end.

(** The options [getLogs] passes to [this.do]: [type], then the
    properties of the query, [from] and [to] replaced by seconds. *)
Definition getLogs (now : Z) (projectName logstoreName : string)
    (query : object value) (requestOptions : option SafeRequestOptions)
  : RequestOptions :=
  let fromSec := seconds (splitTimestamp now (numberAt query "from")) in
  let toSec := seconds (splitTimestamp now (numberAt query "to")) in
  {| method := GET;
     path := ("/logstores/" ++ logstoreName)%string;
     queries :=
       Some (set (set (assign [("type", VString "log")]%string query)
                    "from" (VNumber fromSec))
               "to" (VNumber toSec));
     body := None;
     headers := None;
     projectName := Some projectName;
     requestOptions := requestOptions |}.

End Client.

(** ** The canonical forms as the specification words them *)

Module Spec.

Import Js.

(** The canonicalized headers of the specification: the names that start
    with [x-log-] or [x-acs-] once in lower case, lower-cased, sorted,
    each followed by a colon and the trimmed value of that header. *)
Definition canonicalizedHeaders (headers : object string) : string :=
  join LF
    (map (fun name => name ++ ":" ++ trim (Fetch.getHeader headers name))
       (sort
          (map toLowerCase
             (filter (fun key =>
                        startsWith (toLowerCase key) "x-log-"
                        || startsWith (toLowerCase key) "x-acs-")
                (keys headers))))).

(** The caller of the exchange gives no header under the name [k]. *)
Definition notGiven (headers : option (object string)) (k : string) : Prop :=
  forall h, headers = Some h -> get h k = None.



End Spec.

(** ** Sample data *)

Module Sample.

Import Js Request.

Definition config : RequestConfig :=
  {| endpoint := "cn-hangzhou.log.aliyuncs.com";
     accessKeyID := "LTAI4Fexample";
     accessKeySecret := "secret";
     stsToken := Some "session-token";
     globalRequestOptions := None |}.

(** The same keys on another endpoint and without a session token. *)
Definition config' : RequestConfig :=
  {| endpoint := "cn-shanghai.log.aliyuncs.com";
     accessKeyID := "LTAI4Fexample";
     accessKeySecret := "secret";
     stsToken := None;
     globalRequestOptions := Some {| timeout := Some (Some 500%Z) |} |}.

Definition date : string := "Tue, 03 Nov 2026 08:00:00 GMT".

Definition getOptions : RequestOptions :=
  {| method := GET;
     path := "/logstores/app";
     queries := Some [("type", VString "log"); ("from", VNumber 1700000000);
                      ("to", VNumber 1700000600); ("query", VUndefined)];
     body := None;
     headers := None;
     projectName := Some "project";
     requestOptions := None |}.

Definition postOptions : RequestOptions :=
  {| method := POST;
     path := "/logstores/app/shards/lb";
     queries := None;
     body := Some [x0a; x02; x08; x01];
     headers := Some [("x-log-bodyrawsize", "4");
                      ("content-type", "application/x-protobuf")];
     projectName := Some "project";
     requestOptions := None |}.

(** A request whose caller gives a header of its own under a name the
    exchange has a default for. *)
Definition overridden : RequestOptions :=
  {| method := GET;
     path := "/logstores/app";
     queries := None;
     body := None;
     headers := Some [("x-log-apiversion", "0.5.0")];
     projectName := None;
     requestOptions := None |}.



Definition logZero : Client.LogEntity :=
  {| Client.content := [("k", VString "v")];
     Client.timestamp := Some 0%Z;
     Client.timestampNsPart := Some 0%Z |}.

End Sample.

(** * Properties *)

(** ** Order and sorting of strings *)

Module JsFacts.

Import Js.

Lemma ascii_compare_refl c : Ascii.compare c c = Eq.
Proof. unfold Ascii.compare. apply N.compare_refl. Qed.

Lemma compare_refl s : String.compare s s = Eq.
Proof.
  induction s as [|c s IH]; simpl; [reflexivity|].
  now rewrite ascii_compare_refl.
Qed.

Lemma le_refl s : le s s.
Proof. unfold le, String.leb. now rewrite compare_refl. Qed.

Lemma le_trans a b c : le a b -> le b c -> le a c.
Proof.
  unfold le, String.leb.
  revert b c; induction a as [|x a IH]; intros [|y b] [|z c]; simpl;
    try congruence.
  unfold Ascii.compare.
  destruct (N.compare_spec (N_of_ascii x) (N_of_ascii y)) as [Exy|Lxy|Gxy];
    destruct (N.compare_spec (N_of_ascii y) (N_of_ascii z)) as [Eyz|Lyz|Gyz];
    try congruence; intros Hab Hbc.
  - rewrite Exy, Eyz, N.compare_refl. now apply IH with b.
  - rewrite Exy. now apply N.compare_lt_iff in Lyz as ->.
  - rewrite <- Eyz. now apply N.compare_lt_iff in Lxy as ->.
  - assert (L : (N_of_ascii x < N_of_ascii z)%N) by lia.
    now apply N.compare_lt_iff in L as ->.
Qed.

Lemma le_antisym a b : le a b -> le b a -> a = b.
Proof. apply String.leb_antisym. Qed.

Lemma le_total a b : le a b \/ le b a.
Proof. apply String.leb_total. Qed.

Lemma not_le a b : (a <=? b) = false -> le b a.
Proof. intros H. destruct (le_total a b) as [L|L]; [unfold le in L; congruence|exact L]. Qed.

Lemma insert_perm x l : Permutation (insert x l) (x :: l).
Proof.
  induction l as [|y l IH]; simpl; [reflexivity|].
  destruct (x <=? y); [reflexivity|].
  rewrite IH. apply perm_swap.
Qed.

Lemma sort_perm l : Permutation (sort l) l.
Proof.
  induction l as [|x l IH]; simpl; [reflexivity|].
  rewrite insert_perm. now constructor.
Qed.

Lemma insert_sorted x l :
  StronglySorted le l -> StronglySorted le (insert x l).
Proof.
  induction 1 as [|y l Hl IH Hy]; simpl.
  - repeat constructor.
  - destruct (x <=? y) eqn:E.
    + constructor; [now constructor|].
      constructor; [exact E|].
      eapply Forall_impl; [|exact Hy]. intros z. now apply le_trans.
    + constructor; [exact IH|].
      eapply Permutation_Forall; [symmetry; apply insert_perm|].
      constructor; [now apply not_le|exact Hy].
Qed.

Lemma sort_sorted l : StronglySorted le (sort l).
Proof.
  induction l as [|x l IH]; simpl; [constructor|now apply insert_sorted].
Qed.

(** Two sorted lists with the same elements are the same list. *)
Lemma sorted_unique l l' :
  StronglySorted le l -> StronglySorted le l' -> Permutation l l' -> l = l'.
Proof.
  intros Hl; revert l'.
  induction Hl as [|a l Hl IH Ha]; intros l' Hl' P.
  - now apply Permutation_nil in P.
  - destruct Hl' as [|b l' Hl' Hb].
    + symmetry in P. now apply Permutation_nil in P.
    + assert (a = b) as <-.
      { apply le_antisym.
        - assert (I : In b (a :: l))
            by (eapply Permutation_in; [symmetry; exact P|now left]).
          destruct I as [->|I]; [apply le_refl|].
          rewrite Forall_forall in Ha. now apply Ha.
        - assert (I : In a (b :: l'))
            by (eapply Permutation_in; [exact P|now left]).
          destruct I as [->|I]; [apply le_refl|].
          rewrite Forall_forall in Hb. now apply Hb. }
      f_equal. apply IH; [exact Hl'|]. now apply Permutation_cons_inv in P.
Qed.

(** [sort] depends on the elements only, not on their order. *)
Lemma sort_invariant l l' : Permutation l l' -> sort l = sort l'.
Proof.
  intros P. apply sorted_unique; try apply sort_sorted.
  now rewrite !sort_perm.
Qed.

Lemma sort_sorted_id l : StronglySorted le l -> sort l = l.
Proof.
  intros H. apply sorted_unique; [apply sort_sorted|exact H|apply sort_perm].
Qed.

Lemma filter_perm {A} (f : A -> bool) l l' :
  Permutation l l' -> Permutation (filter f l) (filter f l').
Proof.
  induction 1 as [|x l l' _ IH|x y l|l1 l2 l3 _ IH1 _ IH2]; simpl.
  - constructor.
  - destruct (f x); [now constructor|exact IH].
  - destruct (f x), (f y); try reflexivity. apply perm_swap.
  - now transitivity (filter f l2).
Qed.

End JsFacts.

(** ** Objects *)

Module ObjectFacts.

Import Js.

Section WithValues.
Context {V : Type}.
Implicit Types (o t s : object V) (k : string) (v : V).

Lemma get_set o k v k' :
  get (set o k v) k' = if k =? k' then Some v else get o k'.
Proof.
  induction o as [|[k0 v0] o IH]; simpl.
  - reflexivity.
  - destruct (k0 =? k) eqn:E; simpl.
    + apply String.eqb_eq in E as ->. now destruct (k =? k').
    + rewrite IH. destruct (k0 =? k') eqn:E'; [|reflexivity].
      apply String.eqb_eq in E'. subst k'.
      now rewrite String.eqb_sym, E.
Qed.

Lemma get_set_same o k v : get (set o k v) k = Some v.
Proof. now rewrite get_set, String.eqb_refl. Qed.

Lemma get_set_other o k v k' : k <> k' -> get (set o k v) k' = get o k'.
Proof. intros N. rewrite get_set. now apply String.eqb_neq in N as ->. Qed.

Lemma get_app o o' k :
  get (o ++ o')%list k = match get o k with Some v => Some v | None => get o' k end.
Proof.
  induction o as [|[k0 v0] o IH]; simpl; [reflexivity|].
  now destruct (k0 =? k).
Qed.

(** After [Object.assign(t, s)] a name holds what [s] gives it last,
    and what [t] gave it when [s] has no such name. *)
Lemma get_assign t s k :
  get (assign t s) k =
  match get (rev s) k with Some v => Some v | None => get t k end.
Proof.
  unfold assign. revert t.
  induction s as [|[k0 v0] s IH]; intros t; simpl; [reflexivity|].
  rewrite IH, get_app, get_set. simpl.
  destruct (get (rev s) k); [reflexivity|].
  now destruct (k0 =? k).
Qed.

Lemma get_None_rev s k : get s k = None -> get (rev s) k = None.
Proof.
  induction s as [|[k0 v0] s IH]; simpl; [reflexivity|].
  destruct (k0 =? k) eqn:E; [discriminate|].
  intros H. rewrite get_app, (IH H). simpl. now rewrite E.
Qed.

Lemma get_In o k v : get o k = Some v -> In (k, v) o.
Proof.
  induction o as [|[k0 v0] o IH]; simpl; [discriminate|].
  destruct (k0 =? k) eqn:E.
  - apply String.eqb_eq in E as ->. intros [= ->]. now left.
  - intros H. right. now apply IH.
Qed.

Lemma In_get o k v : wf o -> In (k, v) o -> get o k = Some v.
Proof.
  unfold wf, keys.
  induction o as [|[k0 v0] o IH]; simpl; [contradiction|].
  intros W [[= -> ->]|I].
  - now rewrite String.eqb_refl.
  - inversion W as [|? ? N W']; subst.
    destruct (k0 =? k) eqn:E; [|now apply IH].
    apply String.eqb_eq in E as ->.
    exfalso. apply N. now apply (in_map fst) in I.
Qed.

(** Reading a property does not depend on the order of enumeration. *)
Lemma get_perm o o' k : wf o -> Permutation o o' -> get o k = get o' k.
Proof.
  intros W P.
  assert (W' : wf o').
  { unfold wf, keys in *. eapply Permutation_NoDup; [|exact W].
    now apply Permutation_map. }
  destruct (get o k) as [v|] eqn:G.
  - symmetry. apply In_get; [exact W'|].
    eapply Permutation_in; [exact P|]. now apply get_In.
  - destruct (get o' k) as [v'|] eqn:G'; [|reflexivity].
    apply get_In in G'. symmetry in P.
    apply (Permutation_in _ P), (In_get _ _ _ W) in G'. congruence.
Qed.
End WithValues.

End ObjectFacts.

(** ** Canonicalized headers *)

Module HeaderFacts.

Import Js Request JsFacts ObjectFacts.

Lemma at_perm (headers headers' : object string) key :
  wf headers -> Permutation headers headers' ->
  at_ headers key = at_ headers' key.
Proof. intros W P. unfold at_. now rewrite (get_perm _ _ key W P). Qed.

Lemma sort_filter_keys_perm {V} (f : string -> bool) (o o' : object V) :
  Permutation o o' -> sort (filter f (keys o)) = sort (filter f (keys o')).
Proof.
  intros P. apply sort_invariant, filter_perm. unfold keys.
  now apply Permutation_map.
Qed.

(** The canonicalized headers of the fetch-based builder do not depend
    on the order in which the mapping enumerates its entries. *)
Lemma fetch_canonicalized_perm (headers headers' : object string) :
  wf headers -> Permutation headers headers' ->
  Fetch.getCanonicalizedHeaders headers = Fetch.getCanonicalizedHeaders headers'.
Proof.
  intros W P. unfold Fetch.getCanonicalizedHeaders.
  rewrite (sort_filter_keys_perm _ _ _ P).
  destruct (sort _); [reflexivity|].
  f_equal. apply map_ext. intros key. now rewrite (at_perm _ _ key W P).
Qed.

(** The same holds for the axios-based builder. *)
Lemma axios_canonicalized_perm (headers headers' : object string) :
  wf headers -> Permutation headers headers' ->
  Axios.getCanonicalizedHeaders headers = Axios.getCanonicalizedHeaders headers'.
Proof.
  intros W P. unfold Axios.getCanonicalizedHeaders.
  rewrite (sort_filter_keys_perm _ _ _ P).
  f_equal. apply map_ext. intros key. now rewrite (at_perm _ _ key W P).
Qed.

Lemma getHeader_find (headers : object string) (key : string) :
  Fetch.getHeader headers key =
  match find (fun kv => toLowerCase (fst kv) =? toLowerCase key) headers with
  | Some kv => snd kv
  | None => ""
  end.
Proof.
  induction headers as [|[k v] headers IH]; simpl; [reflexivity|].
  now destruct (toLowerCase k =? toLowerCase key).
Qed.

Lemma toLowerCaseChar_idem c :
  toLowerCaseChar (toLowerCaseChar c) = toLowerCaseChar c.
Proof. destruct c as [[] [] [] [] [] [] [] []]; reflexivity. Qed.

Lemma toLowerCase_idem s : toLowerCase (toLowerCase s) = toLowerCase s.
Proof.
  induction s as [|c s IH]; simpl; [reflexivity|].
  now rewrite toLowerCaseChar_idem, IH.
Qed.

(** On a name already in lower case, the case-insensitive lookup of the
    fetch-based builder is the plain property read. *)
Lemma getHeader_lower (headers : object string) (key : string) :
  Forall (fun k => toLowerCase k = k) (keys headers) ->
  toLowerCase key = key ->
  Fetch.getHeader headers key = at_ headers key.
Proof.
  intros F L. unfold at_.
  induction headers as [|[k v] headers IH]; simpl; [reflexivity|].
  inversion F as [|? ? Hk F']; subst. simpl in Hk.
  rewrite Hk, L. destruct (k =? key); [reflexivity|]. now apply IH.
Qed.

Lemma map_id_on {A} (f : A -> A) (l : list A) :
  Forall (fun x => f x = x) l -> map f l = l.
Proof. induction 1 as [|x l Hx _ IH]; simpl; congruence. Qed.

Lemma sort_filter_Forall (P : string -> Prop) (f : string -> bool) l :
  Forall P l -> Forall P (sort (filter f l)).
Proof.
  intros F. eapply Permutation_Forall; [symmetry; apply sort_perm|].
  rewrite Forall_forall in *. intros k I. apply F. now apply filter_In in I.
Qed.

(** On a mapping whose names are all in lower case the fetch-based
    builder computes the canonicalized headers of the specification. *)
Lemma fetch_canonicalized_lower (headers : object string) :
  Forall (fun k => toLowerCase k = k) (keys headers) ->
  Fetch.getCanonicalizedHeaders headers = Spec.canonicalizedHeaders headers.
Proof.
  intros F. unfold Fetch.getCanonicalizedHeaders, Spec.canonicalizedHeaders.
  set (sel := fun key : string => _ || _).
  assert (Fs : Forall (fun k => toLowerCase k = k) (filter sel (keys headers))).
  { rewrite Forall_forall in *. intros k I. apply F.
    now apply filter_In in I. }
  rewrite (map_id_on _ _ Fs).
  pose proof (sort_filter_Forall _ sel _ F) as Fo.
  destruct (sort (filter sel (keys headers))) as [|k0 ks]; [reflexivity|].
  f_equal. apply map_ext_Forall.
  eapply Forall_impl; [|exact Fo]. intros k Hk. simpl in Hk.
  now rewrite Hk, (getHeader_lower _ _ F Hk).
Qed.

(** On such a mapping the two builders compute the same string. *)
Lemma axios_canonicalized_lower (headers : object string) :
  Forall (fun k => toLowerCase k = k) (keys headers) ->
  Axios.getCanonicalizedHeaders headers = Fetch.getCanonicalizedHeaders headers.
Proof.
  intros F. unfold Fetch.getCanonicalizedHeaders, Axios.getCanonicalizedHeaders.
  assert (E : filter (fun key => startsWith key "x-log-" || startsWith key "x-acs-")
                (keys headers)
              = filter (fun key => let lowerKey := toLowerCase key in
                          startsWith lowerKey "x-log-" || startsWith lowerKey "x-acs-")
                  (keys headers)).
  { induction F as [|k l Hk _ IH]; simpl; [reflexivity|]. now rewrite Hk, IH. }
  rewrite E.
  match goal with
  | |- context [sort (filter ?f ?l)] =>
      pose proof (sort_filter_Forall _ f l F) as Fo;
      destruct (sort (filter f l)) as [|k0 ks]; [reflexivity|]
  end.
  f_equal. apply map_ext_Forall.
  eapply Forall_impl; [|exact Fo]. intros k Hk. simpl in Hk.
  now rewrite Hk.
Qed.

End HeaderFacts.

(** ** Signing *)

Lemma length_append (a b : string) :
  String.length (a ++ b) = String.length a + String.length b.
Proof. induction a as [|c a IH]; simpl; congruence. Qed.

Lemma length_six_fields (a b c d e f : string) :
  String.length (Js.join Js.LF [a; b; c; d; e; f]) =
  String.length a + String.length b + String.length c + String.length d
  + String.length e + String.length f + 5.
Proof.
  unfold Js.join. cbn [String.concat]. rewrite !length_append.
  change (String.length Js.LF) with 1. lia.
Qed.

Section Signing.

Import Js Request JsFacts ObjectFacts HeaderFacts.
Context `{CryptoJS}.

(** C1 (as amended).  In the fetch-based builder the sign string is the
    six fields METHOD, content-md5, content-type, date, canonicalized
    headers and resource joined by line feeds; the three header fields
    are the value of the first header whose lower-cased name is
    [content-md5], [content-type], [date], and the empty string when
    there is none; the five separators are there whatever the fields
    hold; [sign] returns [LOG], a space, the access key id, a colon and
    the base64 of the HMAC-SHA1 of the sign string under the secret.
    In the axios-based builder the three fields are read under their
    exact lower-case names and a missing date gives the text
    [undefined]. *)
Theorem sign_six_fields (config : RequestConfig) (method resource : string)
    (headers : object string) :
  let field (name : string) :=
    match find (fun kv => toLowerCase (fst kv) =? name) headers with
    | Some kv => snd kv
    | None => ""
    end in
  let exact (name absent : string) :=
    match get headers name with
    | Some v => v
    | None => absent
    end in
  let signString :=
    join LF [method; field "content-md5"; field "content-type"; field "date";
             Fetch.getCanonicalizedHeaders headers; resource] in
  Fetch.signString method resource headers = signString
  /\ String.length signString =
       String.length method + String.length (field "content-md5")
       + String.length (field "content-type") + String.length (field "date")
       + String.length (Fetch.getCanonicalizedHeaders headers)
       + String.length resource + 5
  /\ Fetch.sign config method resource headers =
       "LOG " ++ accessKeyID config ++ ":"
       ++ Enc.Base64 (HmacSHA1 signString (accessKeySecret config))
  /\ Axios.sign config method resource headers =
       "LOG " ++ accessKeyID config ++ ":"
       ++ Enc.Base64
            (HmacSHA1
               (join LF [method; exact "content-md5" ""; exact "content-type" "";
                         exact "date" "undefined";
                         Axios.getCanonicalizedHeaders headers; resource])
               (accessKeySecret config)).
Proof.
  intros field exact signString.
  assert (E : Fetch.signString method resource headers = signString).
  { unfold Fetch.signString, signString, field.
    now rewrite !getHeader_find. }
  split; [exact E|]. split; [|split].
  - apply length_six_fields.
  - unfold Fetch.sign. now rewrite E.
  - reflexivity.
Qed.

(** C1, the claim as stated fails on the axios-based builder: a header
    written [Content-Type] is not found, and without a [date] header the
    fourth field is the text [undefined]. *)
Lemma sign_six_fields_counterexample :
  Axios.signString "GET" "/" [("Content-Type", "text/plain")]
  = join LF ["GET"; ""; ""; "undefined"; ""; "/"]
  /\ Axios.signString "GET" "/" [("Content-Type", "text/plain")]
     <> join LF ["GET"; ""; "text/plain"; ""; ""; "/"].
Proof. split; [reflexivity|discriminate]. Qed.

(** On headers whose names are in lower case and which hold a date, as
    the exchange builds them from its defaults, the two builders sign
    the same string. *)
Lemma axios_signString_lower (method resource : string) (headers : object string) :
  Forall (fun k => toLowerCase k = k) (keys headers) ->
  get headers "date" <> None ->
  Axios.signString method resource headers
  = Fetch.signString method resource headers.
Proof.
  intros F D. unfold Axios.signString, Fetch.signString.
  rewrite (axios_canonicalized_lower _ F).
  rewrite !(getHeader_lower _ _ F) by reflexivity. unfold at_.
  destruct (get headers "date"); [reflexivity|contradiction].
Qed.

(** C2 (the code at a failing input).  The fetch-based builder sorts the
    selected names as they are written and lower-cases them afterwards:
    with the defaults of the exchange and a caller's [X-Log-Bodyrawsize]
    the line of that header comes first, although [x-log-apiversion]
    sorts before [x-log-bodyrawsize]; writing the name in lower case
    changes the output, which is then the one of the specification. *)
Theorem canonicalized_headers_case_order :
  let mixed := [("x-log-apiversion", "0.6.0"); ("x-log-signaturemethod", "hmac-sha1");
                ("X-Log-Bodyrawsize", "10")] in
  let lower := [("x-log-apiversion", "0.6.0"); ("x-log-signaturemethod", "hmac-sha1");
                ("x-log-bodyrawsize", "10")] in
  Fetch.getCanonicalizedHeaders mixed
  = join LF ["x-log-bodyrawsize:10"; "x-log-apiversion:0.6.0";
             "x-log-signaturemethod:hmac-sha1"]
  /\ Fetch.getCanonicalizedHeaders lower
     = join LF ["x-log-apiversion:0.6.0"; "x-log-bodyrawsize:10";
                "x-log-signaturemethod:hmac-sha1"]
  /\ Spec.canonicalizedHeaders mixed = Fetch.getCanonicalizedHeaders lower
  /\ Fetch.getCanonicalizedHeaders mixed <> Fetch.getCanonicalizedHeaders lower.
Proof. repeat split; discriminate. Qed.

(** The axios-based builder does not look at the case at all: a name
    written with capitals is not selected. *)
Lemma axios_canonicalized_headers_case :
  Axios.getCanonicalizedHeaders
    [("x-log-apiversion", "0.6.0"); ("X-Log-Bodyrawsize", "10")]
  = "x-log-apiversion:0.6.0".
Proof. reflexivity. Qed.

(** C8.  Signing is a function of the method, the resource, the headers
    and the two access key fields: two configurations that agree on the
    key id and on the secret give the same header value, in either
    builder. *)
Theorem sign_deterministic (config config' : RequestConfig)
    (method resource : string) (headers : object string) :
  accessKeyID config = accessKeyID config' ->
  accessKeySecret config = accessKeySecret config' ->
  Fetch.sign config method resource headers
  = Fetch.sign config' method resource headers
  /\ Axios.sign config method resource headers
     = Axios.sign config' method resource headers.
Proof.
  intros Eid Esecret. unfold Fetch.sign, Axios.sign.
  now rewrite Eid, Esecret.
Qed.

End Signing.

(** ** Double-precision arithmetic *)

Module DoubleFacts.

Import Double.
Local Open Scope Z_scope.

(** Below 2^53 every integer is a double. *)
Lemma round_small n : Z.abs n < 2 ^ 53 -> round n = n.
Proof.
  intros B. unfold round.
  destruct (Z.eq_dec (Z.abs n) 0) as [E|N].
  - rewrite E. reflexivity.
  - assert (L : Z.log2 (Z.abs n) < 53) by (apply Z.log2_lt_pow2; lia).
    destruct (Z.leb_spec (Z.log2 (Z.abs n) - 52) 0); [reflexivity|lia].
Qed.

Lemma roundDiv_multiple q d : 0 < d -> roundDiv (q * d) d = q.
Proof.
  intros D. unfold roundDiv.
  rewrite Z.div_mul, Z.mod_mul by lia.
  destruct (Z.ltb_spec (2 * 0) d); [reflexivity|lia].
Qed.

(** An integer with at most 53 significant bits is a double, however
    many zero bits follow them. *)
Lemma exact_shift m e : Z.abs m < 2 ^ 53 -> 0 <= e -> exact (m * 2 ^ e).
Proof.
  intros B E. unfold exact, round.
  set (n := m * 2 ^ e). set (a := Z.abs n).
  assert (P : 0 < 2 ^ e) by (apply Z.pow_pos_nonneg; lia).
  assert (A : a = Z.abs m * 2 ^ e) by (unfold a, n; rewrite Z.abs_mul; lia).
  destruct (Z.leb_spec (Z.log2 a - 52) 0) as [|S]; [reflexivity|].
  assert (A0 : 0 < a).
  { destruct (Z.eq_dec a 0) as [Z0|]; [rewrite Z0 in S; simpl in S; lia|].
    unfold a. lia. }
  assert (L : Z.log2 a < 53 + e).
  { apply Z.log2_lt_pow2; [exact A0|].
    rewrite Z.pow_add_r by lia. rewrite A. nia. }
  set (s := Z.log2 a - 52) in *.
  assert (D : a = (Z.abs m * 2 ^ (e - s)) * 2 ^ s).
  { rewrite <- Z.mul_assoc, <- Z.pow_add_r by lia.
    replace (e - s + s) with e by lia. exact A. }
  rewrite D, roundDiv_multiple by (apply Z.pow_pos_nonneg; lia).
  rewrite <- D. unfold a. rewrite Z.mul_comm. apply Z.abs_sgn.
Qed.

(** The quotient of an integer by 1000, rounded to a double and then
    floored, is the integer quotient: the double is within half a unit
    in the last place of the exact quotient, which is farther than that
    from the next integer. *)
Lemma floorDiv_1000 t : 1000 <= t < 2 ^ 53 -> floorDiv t 1000 = t / 1000.
Proof.
  intros [Lo Hi]. unfold floorDiv.
  assert (Q1 : 1 <= t / 1000) by (apply Z.div_le_lower_bound; lia).
  assert (Q2 : t / 1000 < 2 ^ 44)
    by (apply Z.div_lt_upper_bound; [lia|]; change (2 ^ 53) with 9007199254740992 in Hi;
        change (2 ^ 44) with 17592186044416; lia).
  assert (K : Z.log2 (t / 1000) < 44) by (apply Z.log2_lt_pow2; lia).
  set (s := 52 - Z.log2 (t / 1000)).
  assert (S9 : 9 <= s) by (unfold s; lia).
  destruct (Z.leb_spec 0 s) as [_|]; [|lia].
  assert (P : 512 <= 2 ^ s)
    by (change 512 with (2 ^ 9); apply Z.pow_le_mono_r; lia).
  set (p := 2 ^ s) in *.
  pose proof (Z.div_mod t 1000 ltac:(lia)) as Et.
  pose proof (Z.mod_pos_bound t 1000 ltac:(lia)) as Rt.
  set (q := t / 1000) in *. set (r := t mod 1000) in *.
  unfold roundDiv.
  pose proof (Z.div_mod (t * p) 1000 ltac:(lia)) as En.
  pose proof (Z.mod_pos_bound (t * p) 1000 ltac:(lia)) as Rn.
  set (Q := t * p / 1000) in *. set (rho := (t * p) mod 1000) in *.
  assert (Y : 0 <= r * p <= 999 * p) by nia.
  assert (X : 1000 * Q + rho = 1000 * (q * p) + r * p) by nia.
  assert (B : q * p <= Q /\ Q < (q + 1) * p) by nia.
  symmetry.
  destruct (Z.ltb_spec (2 * rho) 1000);
    [|destruct (Z.ltb_spec 1000 (2 * rho)); [|destruct (Z.even Q)]].
  - apply Z.div_unique with (Q - q * p); lia.
  - apply Z.div_unique with (Q + 1 - q * p); nia.
  - apply Z.div_unique with (Q - q * p); lia.
  - apply Z.div_unique with (Q + 1 - q * p); nia.
Qed.

(** A product whose double is below 2^1024 does not overflow. *)
Lemma mul_finite (a b : Z) :
  Z.abs (round (a * b)) < 2 ^ 1024 -> mul a b = Num (round (a * b)).
Proof.
  intros B. unfold mul, finite. now apply Z.ltb_lt in B as ->.
Qed.

Lemma mul_small (a b : Z) : Z.abs (a * b) < 2 ^ 53 -> mul a b = Num (a * b).
Proof.
  intros B. rewrite mul_finite; rewrite (round_small _ B); [reflexivity|].
  apply Z.lt_trans with (1 := B). reflexivity.
Qed.

Lemma mul_exact (a b : Z) :
  exact (a * b) -> Z.abs (a * b) < 2 ^ 1024 -> mul a b = Num (a * b).
Proof.
  intros X B. unfold exact in X. rewrite mul_finite; rewrite X; [reflexivity|exact B].
Qed.

Lemma rem_Num (a b : Z) : b <> 0 -> rem (Num a) (Num b) = Num (Z.rem a b).
Proof.
  intros N. unfold rem. now apply Z.eqb_neq in N as ->.
Qed.

End DoubleFacts.

(** ** client.ts: timestamps and log entries *)

Section Timestamps.

Import Js Request Client DoubleFacts.
Local Open Scope Z_scope.

(** A timestamp in milliseconds that is a multiple of 4 and lies below
    2^53 * 4 / 15625 (the year 2043) has an exact product with 10^6. *)
Lemma exact_millis t :
  t mod 4 = 0 -> Z.abs t < 2305843009213 -> Double.exact (t * 1000000).
Proof.
  intros M B.
  pose proof (Z.div_mod t 4 ltac:(lia)) as E. rewrite M in E.
  replace (t * 1000000) with ((t / 4 * 15625) * 2 ^ 8)
    by (change (2 ^ 8) with 256; lia).
  apply exact_shift; [|lia].
  change (2 ^ 53) with 9007199254740992. lia.
Qed.

(** C4 (as amended).  For every integer timestamp [t] other than 0:
    below 10^12 it is taken as seconds, [{seconds: t, nanoseconds: 0}];
    from 10^12 on (and below 2^53) it is taken as milliseconds, the
    seconds being [floor(t / 1000)], and the nanoseconds are
    [(t * 10^6) mod 10^9] whenever the products [t * 1000] and
    [t * 10^6] need no rounding in double precision. *)
Theorem splitTimestamp_nonzero (now t : Z) :
  t <> 0 ->
  (t < 10 ^ 12 ->
   splitTimestamp now (Some t) = {| seconds := t; nanoseconds := 0 |})
  /\ (10 ^ 12 <= t < 2 ^ 53 ->
      seconds (splitTimestamp now (Some t)) = t / 1000)
  /\ (10 ^ 12 <= t -> t * 1000 < 2 ^ 53 -> Double.exact (t * 1000000) ->
      nanoseconds (splitTimestamp now (Some t)) = (t * 1000000) mod 10 ^ 9).
Proof.
  intros N. unfold splitTimestamp.
  apply Z.eqb_neq in N. rewrite N.
  change (10 ^ 12) with 1000000000000. change (10 ^ 9) with 1000000000.
  repeat split.
  - intros L. now apply Z.ltb_lt in L as ->.
  - intros [L U]. apply Z.ltb_ge in L as L'. rewrite L'. simpl.
    apply floorDiv_1000. lia.
  - intros L U X. apply Z.ltb_ge in L as L'. rewrite L'.
    cbn [nanoseconds]. unfold Double.floor.
    rewrite mul_small by lia.
    assert (E : t * 1000 * 1000 = t * 1000000) by lia.
    assert (B : Z.abs (t * 1000 * 1000) < 2 ^ 1024)
      by (apply Z.lt_trans with (2 ^ 63); [lia|reflexivity]).
    rewrite mul_exact by first [assumption | rewrite E; assumption].
    rewrite E, rem_Num by discriminate. f_equal. apply Z.rem_mod_nonneg; lia.
Qed.

Lemma splitTimestamp_nonzero_witness :
  splitTimestamp 0 (Some 1699999999)
  = {| seconds := 1699999999; nanoseconds := 0 |}
  /\ seconds (splitTimestamp 0 (Some 1700000000500)) = 1700000000
  /\ nanoseconds (splitTimestamp 0 (Some 1700000000500)) = 500000000.
Proof.
  split; [|split].
  - apply (splitTimestamp_nonzero 0 1699999999); lia.
  - apply (splitTimestamp_nonzero 0 1700000000500); lia.
  - apply (splitTimestamp_nonzero 0 1700000000500); try lia.
    apply exact_millis; [reflexivity|simpl; lia].
Defined.

(** C4, the claim as stated fails at 0, which is below 10^12 and yet is
    replaced by the clock (here 1700000000123), and at 1700000000001
    milliseconds, where [t * 10^6] is rounded to a multiple of 256
    before the remainder is taken. *)
Lemma splitTimestamp_counterexample :
  splitTimestamp 1700000000123 (Some 0)
  = {| seconds := 1700000000; nanoseconds := 123000064 |}
  /\ splitTimestamp 1700000000123 (Some 0)
     <> {| seconds := 0; nanoseconds := 0 |}
  /\ nanoseconds (splitTimestamp 0 (Some 1700000000001)) = 999936
  /\ (1700000000001 * 1000000) mod 10 ^ 9 = 1000000.
Proof. repeat split. discriminate. Qed.



(** [data.logs.map] keeps the number and the order of the entries. *)
Lemma toLogs_length clock i logs :
  List.length (toLogs clock i logs) = List.length logs.
Proof.
  revert i. induction logs as [|log logs IH]; intros i; simpl; [reflexivity|].
  now rewrite IH.
Qed.

Lemma toLogs_nth clock j logs i log :
  nth_error logs i = Some log ->
  nth_error (toLogs clock j logs) i = Some (toLog (clock (j + i)%nat) log).
Proof.
  revert j i. induction logs as [|l0 logs IH]; intros j [|i]; simpl;
    try discriminate.
  - intros [= ->]. now rewrite Nat.add_0_r.
  - intros E. rewrite (IH (S j) i E). do 3 f_equal. lia.
Qed.





End Timestamps.

(** ** The headers of the exchange *)

Module ExchangeFacts.

Import Js Request ObjectFacts.

Lemma get_mergeHeaders date headers k :
  Spec.notGiven headers k ->
  get (mergeHeaders date headers) k = get (defaultHeaders date) k.
Proof.
  intros N. unfold mergeHeaders. destruct headers as [h|]; [|reflexivity].
  now rewrite get_assign, (get_None_rev _ _ (N h eq_refl)).
Qed.

Lemma get_withToken config headers k :
  get (withToken config headers) k =
  match stsToken config with
  | Some token =>
      if token =? "" then get headers k
      else if "x-acs-security-token" =? k then Some token else get headers k
  | None => get headers k
  end.
Proof.
  unfold withToken. destruct (stsToken config) as [token|]; [|reflexivity].
  destruct (token =? ""); [reflexivity|apply get_set].
Qed.

Lemma get_withBody `{CryptoJS} body headers k :
  get (withBody body headers) k =
  match body with
  | Some b =>
      if "content-md5" =? k then Some (toUpperCase (Enc.Hex (MD5 b)))
      else if "content-length" =? k
           then Some (numberToString (Z.of_nat (List.length b)))
           else get headers k
  | None => get headers k
  end.
Proof.
  unfold withBody. destruct body as [b|]; [|reflexivity].
  now rewrite !get_set.
Qed.

End ExchangeFacts.

(** ** The resource that is signed *)

Section Resource.

Import Js Request JsFacts ObjectFacts ExchangeFacts.
Context `{CryptoJS} `{Qs}.

(** C3.  In the fetch-based builder the resource handed to [sign] is
    the path; for a GET with a non-empty query object it is followed by
    [?] and the parameters, sorted by key, each as [key=value], joined
    by [&], an [undefined] value giving the empty string. *)
Theorem resource_of_request (date : string) (config : RequestConfig)
    (options : RequestOptions) :
  get (req_headers (Fetch.do_request date config options)) "authorization"
  = Some (Fetch.sign config (methodString (method options))
            (Fetch.resourceOf options)
            (withBody (body options)
               (withToken config (mergeHeaders date (headers options)))))
  /\ match method options, queries options with
     | GET, Some ((_ :: _) as q) =>
         exists ks,
           Permutation ks (keys q) /\ StronglySorted le ks
           /\ Fetch.resourceOf options
              = path options ++ "?"
                ++ join "&"
                     (map (fun key =>
                             key ++ "="
                             ++ match get q key with
                                | Some VUndefined | None => ""
                                | Some v => ToString v
                                end) ks)
     | _, _ => Fetch.resourceOf options = path options
     end
  /\ formatResource "/logstores/app" (Some [("b", VNumber 1); ("a", VNumber 2)])
     = "/logstores/app?a=2&b=1"
  /\ formatResource "/logstores/app" (Some [("key", VUndefined)])
     = "/logstores/app?key=".
Proof.
  split; [|split; [|split; reflexivity]].
  - unfold Fetch.do_request. simpl. apply get_set_same.
  - unfold Fetch.resourceOf.
    destruct (method options); try reflexivity.
    destruct (queries options) as [[|[k v] q]|]; try reflexivity.
    exists (sort (keys ((k, v) :: q))).
    split; [apply sort_perm|]. split; [apply sort_sorted|].
    unfold formatResource. cbn [keys map fst].
    do 3 f_equal. apply map_ext. intros key.
    now destruct (get ((k, v) :: q) key) as [[]|].
Qed.

(** The axios-based builder appends the query whatever the method. *)
Lemma axios_resource_any_method :
  get (req_headers
         (Axios.do_request Sample.date Sample.config
            {| method := POST; path := "/logstores/app";
               queries := Some [("b", VNumber 1); ("a", VNumber 2)];
               body := None; headers := None; projectName := None;
               requestOptions := None |})) "authorization"
  = Some (Axios.sign Sample.config "POST" "/logstores/app?a=2&b=1"
            (withToken Sample.config (defaultHeaders Sample.date))).
Proof. unfold Axios.do_request. cbn [req_headers]. apply get_set_same. Qed.

End Resource.

(** ** The headers of an outgoing request *)

Section Exchange.

Import Js Request JsFacts ObjectFacts ExchangeFacts.
Context `{CryptoJS} `{Qs}.

(** The headers of either builder before they are signed. *)
Local Abbreviation unsigned date config options :=
  (withBody (body options)
     (withToken config (mergeHeaders date (headers options)))).

(** Both builders add [authorization] to the same headers; they differ
    in the resource they sign. *)
Lemma fetch_headers date config options :
  req_headers (Fetch.do_request date config options)
  = set (unsigned date config options) "authorization"
      (Fetch.sign config (methodString (method options))
         (Fetch.resourceOf options) (unsigned date config options)).
Proof. reflexivity. Qed.

Lemma axios_headers date config options :
  req_headers (Axios.do_request date config options)
  = set (unsigned date config options) "authorization"
      (Axios.sign config (methodString (method options))
         (formatResource (path options) (queries options))
         (unsigned date config options)).
Proof. reflexivity. Qed.

(** A header other than [authorization] is in the request as it was
    when the request was signed. *)
Lemma get_request_headers date config options out k :
  out = req_headers (Fetch.do_request date config options)
  \/ out = req_headers (Axios.do_request date config options) ->
  k <> "authorization" ->
  get out k = get (unsigned date config options) k.
Proof.
  intros [-> | ->] N.
  - rewrite fetch_headers. apply get_set_other. congruence.
  - rewrite axios_headers. apply get_set_other. congruence.
Qed.

(** C6.  In the request of either builder, a body gives [content-md5],
    the upper-cased hexadecimal MD5 of the body, and [content-length],
    its number of bytes; without a body the exchange sets neither, so
    that they are absent unless the caller gave them. *)
Theorem body_integrity_headers (date : string) (config : RequestConfig)
    (options : RequestOptions) (out : object string) :
  out = req_headers (Fetch.do_request date config options)
  \/ out = req_headers (Axios.do_request date config options) ->
  match body options with
  | Some b =>
      get out "content-md5" = Some (toUpperCase (Enc.Hex (MD5 b)))
      /\ get out "content-length"
         = Some (numberToString (Z.of_nat (List.length b)))
  | None =>
      (Spec.notGiven (headers options) "content-md5" ->
       get out "content-md5" = None)
      /\ (Spec.notGiven (headers options) "content-length" ->
          get out "content-length" = None)
  end.
Proof.
  intros O.
  assert (G : forall k, k = "content-md5" \/ k = "content-length" ->
                        get out k = get (unsigned date config options) k).
  { intros k [-> | ->]; apply (get_request_headers _ _ _ _ _ O); discriminate. }
  rewrite !G by auto. rewrite !get_withBody.
  destruct (body options) as [b|]; [split; reflexivity|].
  rewrite !get_withToken.
  split; intros N; rewrite (get_mergeHeaders _ _ _ N);
    destruct (stsToken config) as [token|]; try reflexivity;
    destruct (token =? ""); reflexivity.
Qed.

(** C7 (as amended).  In the request of either builder: there is a
    [date] header, the clock's unless the caller gave one; the
    [authorization] header is the signature of the headers as they were
    when it was computed, and every other header of the request is one
    of those; [x-log-apiversion] is [0.6.0] and [x-log-signaturemethod]
    is [hmac-sha1] unless the caller gave headers of these names; with a
    non-empty session token [x-acs-security-token] holds it, and without
    one the header is absent unless the caller gave it. *)
Theorem request_headers_invariant (date : string) (config : RequestConfig)
    (options : RequestOptions) (out : object string) :
  out = req_headers (Fetch.do_request date config options)
  \/ out = req_headers (Axios.do_request date config options) ->
  (exists d, get out "date" = Some d
             /\ (Spec.notGiven (headers options) "date" -> d = date))
  /\ (exists resource,
        (resource = Fetch.resourceOf options
         /\ out = set (unsigned date config options) "authorization"
                   (Fetch.sign config (methodString (method options)) resource
                      (unsigned date config options)))
        \/ (resource = formatResource (path options) (queries options)
            /\ out = set (unsigned date config options) "authorization"
                      (Axios.sign config (methodString (method options)) resource
                         (unsigned date config options))))
  /\ (forall k, k <> "authorization" ->
                get out k = get (unsigned date config options) k)
  /\ (Spec.notGiven (headers options) "x-log-apiversion" ->
      get out "x-log-apiversion" = Some "0.6.0")
  /\ (Spec.notGiven (headers options) "x-log-signaturemethod" ->
      get out "x-log-signaturemethod" = Some "hmac-sha1")
  /\ (forall token, stsToken config = Some token -> token <> "" ->
                    get out "x-acs-security-token" = Some token)
  /\ (stsToken config = None \/ stsToken config = Some "" ->
      Spec.notGiven (headers options) "x-acs-security-token" ->
      get out "x-acs-security-token" = None).
Proof.
  intros O.
  pose proof (get_request_headers _ _ _ _ "date" O ltac:(discriminate)) as Gd.
  pose proof (get_request_headers _ _ _ _ "x-log-apiversion" O ltac:(discriminate)) as Ga.
  pose proof (get_request_headers _ _ _ _ "x-log-signaturemethod" O ltac:(discriminate)) as Gs.
  pose proof (get_request_headers _ _ _ _ "x-acs-security-token" O ltac:(discriminate)) as Gt.
  rewrite get_withBody, get_withToken in Gd, Ga, Gs, Gt.
  assert (B : forall k (x : option string),
             ("content-md5" =? k) = false -> ("content-length" =? k) = false ->
             match body options with
             | Some b =>
                 if "content-md5" =? k then Some (toUpperCase (Enc.Hex (MD5 b)))
                 else if "content-length" =? k
                      then Some (numberToString (Z.of_nat (List.length b)))
                      else x
             | None => x
             end = x).
  { intros k x E1 E2. destruct (body options); [now rewrite E1, E2|reflexivity]. }
  rewrite B in Gd, Ga, Gs, Gt by reflexivity. clear B.
  assert (T : forall k (x : option string),
             ("x-acs-security-token" =? k) = false ->
             match stsToken config with
             | Some token =>
                 if token =? "" then x
                 else if "x-acs-security-token" =? k then Some token else x
             | None => x
             end = x).
  { intros k x E. destruct (stsToken config) as [token|]; [|reflexivity].
    rewrite E. now destruct (token =? ""). }
  rewrite T in Gd, Ga, Gs by reflexivity. clear T.
  repeat split.
  - rewrite Gd. unfold mergeHeaders. destruct (headers options) as [h|].
    + rewrite get_assign. destruct (get (rev h) "date") as [d|] eqn:E.
      * exists d. split; [reflexivity|]. intros N.
        rewrite (get_None_rev _ _ (N h eq_refl)) in E. discriminate.
      * exists date. now split.
    + exists date. now split.
  - destruct O as [-> | ->].
    + exists (Fetch.resourceOf options). left. now split.
    + exists (formatResource (path options) (queries options)). right. now split.
  - intros k N. now apply get_request_headers.
  - intros N. now rewrite Ga, (get_mergeHeaders _ _ _ N).
  - intros N. now rewrite Gs, (get_mergeHeaders _ _ _ N).
  - intros token E N. rewrite Gt, E.
    apply String.eqb_neq in N. now rewrite N.
  - intros E N. rewrite Gt, (get_mergeHeaders _ _ _ N).
    destruct E as [-> | ->]; reflexivity.
Qed.

(** C10.  [updateCredential] replaces the key id, the secret and the
    session token of the configuration and keeps the endpoint and the
    client's transport options; when the token argument is left out the
    configuration holds no token, and the requests built from it carry
    no [x-acs-security-token] (none but one the caller would give in the
    request's own headers). *)
Theorem updateCredential_frame (config : RequestConfig)
    (id secret : string) (token : option string)
    (date : string) (options : RequestOptions) (out : object string) :
  (accessKeyID (updateCredential config id secret token) = id
   /\ accessKeySecret (updateCredential config id secret token) = secret
   /\ stsToken (updateCredential config id secret token) = token
   /\ endpoint (updateCredential config id secret token) = endpoint config
   /\ globalRequestOptions (updateCredential config id secret token)
      = globalRequestOptions config)
  /\ (token = None ->
      out = req_headers
              (Fetch.do_request date (updateCredential config id secret token) options)
      \/ out = req_headers
                 (Axios.do_request date (updateCredential config id secret token) options) ->
      Spec.notGiven (headers options) "x-acs-security-token" ->
      get out "x-acs-security-token" = None).
Proof.
  split; [repeat split|].
  intros -> O N.
  rewrite (get_request_headers _ _ _ _ "x-acs-security-token" O) by discriminate.
  rewrite get_withBody, get_withToken. cbn [stsToken updateCredential].
  rewrite (get_mergeHeaders _ _ _ N).
  now destruct (body options).
Qed.

(** The requests of [putLogs] and of [getLogs] give no header of that
    name. *)
Lemma putLogs_no_token_header `{Client.Protobuf} clock projectName logstoreName
    data requestOptions options :
  Client.putLogs clock projectName logstoreName data requestOptions
  = Return options ->
  Spec.notGiven (headers options) "x-acs-security-token".
Proof.
  unfold Client.putLogs.
  destruct (Client.encode _) as [bytes|e]; simpl; [|discriminate].
  intros [= <-] h [= <-]. reflexivity.
Qed.

Lemma getLogs_no_token_header now projectName logstoreName query requestOptions :
  Spec.notGiven
    (headers (Client.getLogs now projectName logstoreName query requestOptions))
    "x-acs-security-token".
Proof. intros h E. discriminate E. Qed.

End Exchange.

(** ** The answer of the service *)


Section Responses.

Import Js Request.

Lemma prop_defined (v : value) (k : string) :
  v <> VNull -> v <> VUndefined -> exists x, prop v k = Return x.
Proof. destruct v; intros; try contradiction; eexists; reflexivity. Qed.



End Responses.

(** ** Concrete runs, with crypto-js and qs themselves *)

Module Runs.

Import Js Request CryptoJSLib QsLib.

(** The runtime and the encoders on known values. *)
Example runtime_examples :
  toLowerCase "X-Log-ApiVersion" = "x-log-apiversion"
  /\ trim "  a b   " = "a b"
  /\ sort ["b"; "a"; "B"; "ab"] = ["B"; "a"; "ab"; "b"]
  /\ numberToString 1024 = "1024"
  /\ ToString (VArray [VNumber 1; VNull; VString "x"]) = "1,,x"
  /\ Enc.Base64 [x4d; x61] = "TWE="
  /\ Enc.Hex [x00; xff; x1a] = "00ff1a".
Proof. repeat split. Qed.

(** The digests on the test vectors of RFC 1321 and RFC 2202. *)
Example digest_examples :
  Enc.Hex (MD5 []) = "d41d8cd98f00b204e9800998ecf8427e"
  /\ Enc.Hex (MD5 [x61; x62; x63]) = "900150983cd24fb0d6963f7d28e17f72"
  /\ Enc.Hex (HmacSHA1 "what do ya want for nothing?" "Jefe")
     = "effcdf6ae5eb2fa2d27416d5f184df9c259a7c79".
Proof. vm_compute. repeat split. Qed.

(** A signed GET: the query of the resource is sorted, the one of the
    URL is in the order of the object. *)
Example signed_get :
  Fetch.do_request Sample.date Sample.config' Sample.getOptions
  = {| req_url := "https://project.cn-shanghai.log.aliyuncs.com/logstores/app"
                  ++ "?type=log&from=1700000000&to=1700000600";
       req_method := GET;
       req_body := None;
       req_headers :=
         [("content-type", "application/json");
          ("date", "Tue, 03 Nov 2026 08:00:00 GMT");
          ("x-log-apiversion", "0.6.0");
          ("x-log-signaturemethod", "hmac-sha1");
          ("authorization", "LOG LTAI4Fexample:3tr5ztInLC/txKcQnydbUmVTxz4=")];
       req_timeout := Some 500%Z |}
  /\ Fetch.resourceOf Sample.getOptions
     = "/logstores/app?from=1700000000&query=&to=1700000600&type=log".
Proof. vm_compute. split; reflexivity. Qed.

Lemma sign_deterministic_witness :
  accessKeyID Sample.config = accessKeyID Sample.config'
  /\ accessKeySecret Sample.config = accessKeySecret Sample.config'
  /\ Fetch.sign Sample.config "GET" "/logstores/app" (defaultHeaders Sample.date)
     = Fetch.sign Sample.config' "GET" "/logstores/app" (defaultHeaders Sample.date)
  /\ Axios.sign Sample.config "GET" "/logstores/app" (defaultHeaders Sample.date)
     = Axios.sign Sample.config' "GET" "/logstores/app" (defaultHeaders Sample.date).
Proof.
  split; [reflexivity|]. split; [reflexivity|].
  apply (sign_deterministic Sample.config Sample.config'); reflexivity.
Defined.

Lemma body_integrity_headers_witness :
  (get (req_headers (Fetch.do_request Sample.date Sample.config Sample.postOptions))
     "content-md5" = Some "3B65561B1654D3556701F454E0CBBDEF"
   /\ get (req_headers (Fetch.do_request Sample.date Sample.config Sample.postOptions))
        "content-length" = Some "4")
  /\ (Spec.notGiven (headers Sample.getOptions) "content-md5"
      /\ get (req_headers (Axios.do_request Sample.date Sample.config Sample.getOptions))
           "content-md5" = None).
Proof.
  split.
  - pose proof (body_integrity_headers Sample.date Sample.config Sample.postOptions
                  _ (or_introl eq_refl)) as [M L].
    split; [rewrite M|rewrite L]; vm_compute; reflexivity.
  - assert (N : Spec.notGiven (headers Sample.getOptions) "content-md5")
      by (intros h E; discriminate E).
    split; [exact N|].
    exact (proj1 (body_integrity_headers Sample.date Sample.config Sample.getOptions
                    _ (or_intror eq_refl)) N).
Defined.

Lemma request_headers_invariant_witness :
  Spec.notGiven (headers Sample.postOptions) "x-log-apiversion"
  /\ Spec.notGiven (headers Sample.postOptions) "x-log-signaturemethod"
  /\ stsToken Sample.config = Some "session-token"
  /\ get (req_headers (Fetch.do_request Sample.date Sample.config Sample.postOptions))
       "x-log-apiversion" = Some "0.6.0"
  /\ get (req_headers (Fetch.do_request Sample.date Sample.config Sample.postOptions))
       "x-log-signaturemethod" = Some "hmac-sha1"
  /\ get (req_headers (Fetch.do_request Sample.date Sample.config Sample.postOptions))
       "x-acs-security-token" = Some "session-token"
  /\ get (req_headers (Fetch.do_request Sample.date Sample.config Sample.postOptions))
       "date" = Some Sample.date.
Proof.
  assert (N : forall k, k <> "x-log-bodyrawsize" -> k <> "content-type" ->
                        Spec.notGiven (headers Sample.postOptions) k).
  { intros k N1 N2 h [= <-]. cbn [get].
    apply String.eqb_neq in N1, N2.
    now rewrite (String.eqb_sym _ k), N1, (String.eqb_sym _ k), N2. }
  pose proof (request_headers_invariant Sample.date Sample.config Sample.postOptions
                _ (or_introl eq_refl)) as [[d [D1 D2]] [_ [_ [V [S [T _]]]]]].
  split; [apply N; discriminate|]. split; [apply N; discriminate|].
  split; [reflexivity|].
  split; [apply V, N; discriminate|]. split; [apply S, N; discriminate|].
  split; [apply (T "session-token"); [reflexivity|discriminate]|].
  rewrite D1. f_equal. apply D2, N; discriminate.
Defined.

(** C7, the claim as stated fails when the caller's headers give
    [x-log-apiversion]: the request carries the caller's value, not
    [0.6.0], in either builder. *)
Lemma request_headers_invariant_counterexample :
  headers Sample.overridden = Some [("x-log-apiversion", "0.5.0")]
  /\ get (req_headers (Fetch.do_request Sample.date Sample.config' Sample.overridden))
       "x-log-apiversion" = Some "0.5.0"
  /\ get (req_headers (Axios.do_request Sample.date Sample.config' Sample.overridden))
       "x-log-apiversion" = Some "0.5.0".
Proof. vm_compute. repeat split. Qed.

Lemma updateCredential_frame_witness :
  Spec.notGiven (headers Sample.getOptions) "x-acs-security-token"
  /\ stsToken Sample.config = Some "session-token"
  /\ stsToken (updateCredential Sample.config "LTAI4Fnext" "next-secret" None) = None
  /\ get (req_headers
            (Fetch.do_request Sample.date
               (updateCredential Sample.config "LTAI4Fnext" "next-secret" None)
               Sample.getOptions)) "x-acs-security-token" = None.
Proof.
  assert (N : Spec.notGiven (headers Sample.getOptions) "x-acs-security-token")
    by (intros h E; discriminate E).
  split; [exact N|]. split; [reflexivity|]. split; [reflexivity|].
  exact (proj2 (updateCredential_frame Sample.config "LTAI4Fnext" "next-secret" None
                  Sample.date Sample.getOptions _)
           eq_refl (or_introl eq_refl) N).
Defined.



(** A response that is not JSON is handed over as its bytes. *)
Example response_not_json :
  Fetch.do_response
    (Fetch.Resolved
       {| Fetch.res_headers := [("content-type", "text/plain")];
          Fetch.res_arrayBuffer := [x6f; x6b];
          Fetch.res_json := None |})
  = Return (RawBytes [x6f; x6b]).
Proof. reflexivity. Qed.

(** An aborted [fetch] is the timeout error of the exchange. *)
Example response_timeout :
  Fetch.do_response (Fetch.Rejected (TransportError "AbortError"))
  = Throw TimeoutError.
Proof. reflexivity. Qed.

End Runs.

(** * Further properties of the code *)

(** ** Writing a property of an object *)

Module SetFacts.

Import Js ObjectFacts.

Section WithValues.
Context {V : Type}.
Implicit Types (o t s : object V) (k : string) (v : V).

Lemma keys_set_in o k v : In k (keys o) -> keys (set o k v) = keys o.
Proof.
  induction o as [|[k0 v0] o IH]; simpl; [contradiction|].
  destruct (k0 =? k) eqn:E.
  - apply String.eqb_eq in E as ->. reflexivity.
  - intros [->|I]; [now rewrite String.eqb_refl in E|].
    simpl. f_equal. now apply IH.
Qed.

Lemma keys_set_new o k v : ~ In k (keys o) -> keys (set o k v) = (keys o ++ [k])%list.
Proof.
  induction o as [|[k0 v0] o IH]; simpl; [reflexivity|].
  intros N. destruct (k0 =? k) eqn:E.
  - apply String.eqb_eq in E. exfalso. apply N. now left.
  - simpl. f_equal. apply IH. intros I. apply N. now right.
Qed.

Lemma keys_set o k v :
  keys (set o k v) = keys o \/ keys (set o k v) = (keys o ++ [k])%list /\ ~ In k (keys o).
Proof.
  destruct (in_dec string_dec k (keys o)) as [I|N].
  - left. now apply keys_set_in.
  - right. split; [now apply keys_set_new|exact N].
Qed.

(** Writing a property keeps the names pairwise distinct. *)
Lemma wf_set o k v : wf o -> wf (set o k v).
Proof.
  unfold wf. intros W. destruct (keys_set o k v) as [->|[-> N]]; [exact W|].
  apply NoDup_app; [exact W|repeat constructor; intros []|].
  intros x I [<-|[]]. contradiction.
Qed.

Lemma wf_assign t s : wf t -> wf (assign t s).
Proof.
  unfold assign. revert t.
  induction s as [|[k v] s IH]; intros t W; simpl; [exact W|].
  apply IH. now apply wf_set.
Qed.

(** A name that a filter rejects can be written without changing what the
    filter keeps. *)
Lemma filter_keys_set (f : string -> bool) o k v :
  f k = false -> filter f (keys (set o k v)) = filter f (keys o).
Proof.
  intros F. destruct (keys_set o k v) as [->|[-> _]]; [reflexivity|].
  rewrite filter_app. simpl. rewrite F. apply app_nil_r.
Qed.

Lemma Forall_keys_set (P : string -> Prop) o k v :
  P k -> Forall P (keys o) -> Forall P (keys (set o k v)).
Proof.
  intros Pk F. destruct (keys_set o k v) as [->|[-> _]]; [exact F|].
  apply Forall_app. split; [exact F|now constructor].
Qed.

Lemma Forall_keys_assign (P : string -> Prop) t s :
  Forall P (keys s) -> Forall P (keys t) -> Forall P (keys (assign t s)).
Proof.
  unfold assign. revert t.
  induction s as [|[k v] s IH]; intros t Fs Ft; simpl; [exact Ft|].
  inversion Fs as [|? ? Pk Fs']; subst.
  apply IH; [exact Fs'|]. now apply Forall_keys_set.
Qed.

Lemma get_rev_wf s k : wf s -> get (rev s) k = get s k.
Proof.
  intros W. symmetry. apply get_perm; [exact W|apply Permutation_rev].
Qed.

End WithValues.

End SetFacts.

(** ** What the signature covers *)

Section Coverage.

Import Js Request JsFacts ObjectFacts HeaderFacts SetFacts.

(** X1.  The canonicalized headers of either builder are the same for
    two mappings with the same entries in another order. *)
Theorem canonicalized_headers_permutation (headers headers' : object string) :
  wf headers -> Permutation headers headers' ->
  Fetch.getCanonicalizedHeaders headers = Fetch.getCanonicalizedHeaders headers'
  /\ Axios.getCanonicalizedHeaders headers = Axios.getCanonicalizedHeaders headers'.
Proof.
  intros W P. split.
  - now apply fetch_canonicalized_perm.
  - now apply axios_canonicalized_perm.
Qed.

Lemma canonicalized_headers_permutation_witness :
  Fetch.getCanonicalizedHeaders
    [("x-log-b", "1"); ("date", "d"); ("x-acs-a", " 2 ")]
  = Fetch.getCanonicalizedHeaders
      [("x-acs-a", " 2 "); ("x-log-b", "1"); ("date", "d")].
Proof.
  apply (canonicalized_headers_permutation
           [("x-log-b", "1"); ("date", "d"); ("x-acs-a", " 2 ")]
           [("x-acs-a", " 2 "); ("x-log-b", "1"); ("date", "d")]).
  - repeat constructor; simpl; intuition discriminate.
  - apply Permutation_sym, (Permutation_cons_app [_; _] []). reflexivity.
Defined.

(** X2.  The header lookup of the fetch-based [sign] ignores case: the
    key may be written in any case, and so may the names of the
    mapping. *)
Theorem getHeader_ignores_case (headers headers' : object string) (key key' : string) :
  toLowerCase key = toLowerCase key' ->
  Forall2 (fun kv kv' => toLowerCase (fst kv) = toLowerCase (fst kv')
                         /\ snd kv = snd kv') headers headers' ->
  Fetch.getHeader headers key = Fetch.getHeader headers' key'.
Proof.
  intros K F. induction F as [|[k v] [k' v'] h h' [Ek Ev] _ IH]; simpl.
  - reflexivity.
  - simpl in Ek, Ev. rewrite Ek, K, Ev, IH. reflexivity.
Qed.

Lemma getHeader_ignores_case_witness :
  Fetch.getHeader [("Content-Type", "a"); ("DATE", "d")] "date"
  = Fetch.getHeader [("content-type", "a"); ("date", "d")] "Date".
Proof.
  apply getHeader_ignores_case; [reflexivity|].
  repeat constructor.
Defined.

Lemma getHeader_set_other (headers : object string) (k v name : string) :
  toLowerCase k <> toLowerCase name ->
  Fetch.getHeader (set headers k v) name = Fetch.getHeader headers name.
Proof.
  intros N. apply String.eqb_neq in N.
  induction headers as [|[k0 v0] headers IH]; simpl.
  - now rewrite N.
  - destruct (k0 =? k) eqn:E; simpl.
    + apply String.eqb_eq in E as ->. now rewrite N.
    + now rewrite IH.
Qed.

Lemma at_set_other (headers : object string) (k v key : string) :
  k <> key -> at_ (set headers k v) key = at_ headers key.
Proof. intros N. unfold at_. now rewrite get_set_other. Qed.

Lemma sorted_filter_In (f : string -> bool) (l : list string) (x : string) :
  In x (sort (filter f l)) -> f x = true.
Proof.
  intros I. apply (Permutation_in _ (sort_perm _)) in I.
  now apply filter_In in I.
Qed.

Lemma fetch_canonicalized_set (headers : object string) (k v : string) :
  startsWith (toLowerCase k) "x-log-" || startsWith (toLowerCase k) "x-acs-" = false ->
  Fetch.getCanonicalizedHeaders (set headers k v)
  = Fetch.getCanonicalizedHeaders headers.
Proof.
  intros F. unfold Fetch.getCanonicalizedHeaders.
  rewrite filter_keys_set by exact F.
  match goal with
  | |- context [sort (filter ?f ?l)] =>
      pose proof (sorted_filter_In f l) as S;
      destruct (sort (filter f l)) as [|k0 ks]; [reflexivity|]
  end.
  f_equal. apply map_ext_in. intros key I. apply S in I.
  rewrite at_set_other; [reflexivity|].
  intros ->. simpl in I. congruence.
Qed.

Lemma axios_canonicalized_set (headers : object string) (k v : string) :
  startsWith k "x-log-" || startsWith k "x-acs-" = false ->
  Axios.getCanonicalizedHeaders (set headers k v)
  = Axios.getCanonicalizedHeaders headers.
Proof.
  intros F. unfold Axios.getCanonicalizedHeaders.
  rewrite filter_keys_set by exact F.
  match goal with
  | |- context [sort (filter ?f ?l)] => pose proof (sorted_filter_In f l) as S
  end.
  f_equal. apply map_ext_in. intros key I. apply S in I.
  rewrite at_set_other; [reflexivity|].
  intros ->. congruence.
Qed.

Lemma fetch_signString_set (method resource : string)
    (headers : object string) (k v : string) :
  toLowerCase k <> "content-md5" ->
  toLowerCase k <> "content-type" ->
  toLowerCase k <> "date" ->
  startsWith (toLowerCase k) "x-log-" || startsWith (toLowerCase k) "x-acs-" = false ->
  Fetch.signString method resource (set headers k v)
  = Fetch.signString method resource headers.
Proof.
  intros N1 N2 N3 P. unfold Fetch.signString.
  rewrite !getHeader_set_other by assumption.
  now rewrite fetch_canonicalized_set.
Qed.

(** X3.  The signature of the fetch-based builder covers the headers
    [content-md5], [content-type], [date] and those that start with
    [x-log-] or [x-acs-], whatever their case, and no other: writing a
    header of another name changes neither the sign string nor the
    signature. *)
Theorem signature_covers_no_other_header `{CryptoJS} (config : RequestConfig)
    (method resource : string) (headers : object string) (k v : string) :
  toLowerCase k <> "content-md5" ->
  toLowerCase k <> "content-type" ->
  toLowerCase k <> "date" ->
  startsWith (toLowerCase k) "x-log-" = false ->
  startsWith (toLowerCase k) "x-acs-" = false ->
  Fetch.signString method resource (set headers k v)
  = Fetch.signString method resource headers
  /\ Fetch.sign config method resource (set headers k v)
     = Fetch.sign config method resource headers.
Proof.
  intros N1 N2 N3 P1 P2.
  assert (E : Fetch.signString method resource (set headers k v)
              = Fetch.signString method resource headers)
    by (apply fetch_signString_set; try assumption; now rewrite P1, P2).
  split; [exact E|]. unfold Fetch.sign. now rewrite E.
Qed.

Lemma axios_signString_set (method resource : string)
    (headers : object string) (k v : string) :
  k <> "content-md5" -> k <> "content-type" -> k <> "date" ->
  startsWith k "x-log-" || startsWith k "x-acs-" = false ->
  Axios.signString method resource (set headers k v)
  = Axios.signString method resource headers.
Proof.
  intros N1 N2 N3 P. unfold Axios.signString.
  rewrite !get_set_other by assumption.
  now rewrite axios_canonicalized_set.
Qed.

End Coverage.

(** ** The signed resource *)

Section ResourceOrder.

Import Js Request JsFacts ObjectFacts.

(** X4.  The resource built from a query object does not depend on the
    order in which the object enumerates its parameters. *)
Theorem formatResource_permutation (path : string) (queries queries' : object value) :
  wf queries -> Permutation queries queries' ->
  formatResource path (Some queries) = formatResource path (Some queries').
Proof.
  intros W P. unfold formatResource.
  assert (K : Permutation (keys queries) (keys queries'))
    by (unfold keys; now apply Permutation_map).
  destruct (keys queries) as [|k ks] eqn:E.
  - apply Permutation_nil in K. now rewrite K.
  - destruct (keys queries') as [|k' ks'] eqn:E'.
    + symmetry in K. now apply Permutation_nil in K.
    + rewrite (sort_invariant _ _ K). do 3 f_equal.
      apply map_ext. intros key. now rewrite (get_perm _ _ key W P).
Qed.

Lemma formatResource_permutation_witness :
  formatResource "/logstores/app"
    (Some [("to", VNumber 2); ("from", VNumber 1); ("type", VString "log")])
  = formatResource "/logstores/app"
      (Some [("type", VString "log"); ("to", VNumber 2); ("from", VNumber 1)]).
Proof.
  apply formatResource_permutation.
  - repeat constructor; simpl; intuition discriminate.
  - apply Permutation_sym, (Permutation_cons_app [_; _] []). reflexivity.
Defined.

End ResourceOrder.

(** ** The request as a whole *)

Section WholeRequest.

Import Js Request JsFacts ObjectFacts HeaderFacts SetFacts ExchangeFacts.
Context `{CryptoJS} `{Qs}.

Local Abbreviation unsigned date config options :=
  (withBody (body options)
     (withToken config (mergeHeaders date (headers options)))).

(** X6.  The signature can be computed again from the request as it is
    sent: the [authorization] header is the signature of the headers of
    the request, that header included. *)
Theorem authorization_signs_sent_headers (date : string) (config : RequestConfig)
    (options : RequestOptions) :
  get (req_headers (Fetch.do_request date config options)) "authorization"
  = Some (Fetch.sign config (methodString (method options))
            (Fetch.resourceOf options)
            (req_headers (Fetch.do_request date config options)))
  /\ get (req_headers (Axios.do_request date config options)) "authorization"
     = Some (Axios.sign config (methodString (method options))
               (formatResource (path options) (queries options))
               (req_headers (Axios.do_request date config options))).
Proof.
  split.
  - rewrite fetch_headers at 1. rewrite get_set_same. f_equal.
    unfold Fetch.sign at 2. rewrite fetch_headers.
    rewrite fetch_signString_set; (reflexivity || discriminate).
  - rewrite axios_headers at 1. rewrite get_set_same. f_equal.
    unfold Axios.sign at 2. rewrite axios_headers.
    rewrite axios_signString_set; (reflexivity || discriminate).
Qed.

Lemma lower_unsigned date config options :
  (forall h, headers options = Some h ->
             Forall (fun k => toLowerCase k = k) (keys h)) ->
  Forall (fun k => toLowerCase k = k) (keys (unsigned date config options)).
Proof.
  intros L.
  assert (D : Forall (fun k => toLowerCase k = k)
                (keys (mergeHeaders date (headers options)))).
  { assert (W : Forall (fun k => toLowerCase k = k) (keys (defaultHeaders date)))
      by (repeat constructor).
    unfold mergeHeaders. destruct (headers options) as [h|]; [|exact W].
    apply Forall_keys_assign; [now apply L|exact W]. }
  assert (T : Forall (fun k => toLowerCase k = k)
                (keys (withToken config (mergeHeaders date (headers options))))).
  { unfold withToken. destruct (stsToken config) as [token|]; [|exact D].
    destruct (token =? ""); [exact D|now apply Forall_keys_set]. }
  unfold withBody. destruct (body options); [|exact T].
  now apply Forall_keys_set; [|apply Forall_keys_set].
Qed.

Lemma date_unsigned date config options :
  get (unsigned date config options) "date" <> None.
Proof.
  rewrite get_withBody, get_withToken.
  assert (D : get (mergeHeaders date (headers options)) "date" <> None).
  { unfold mergeHeaders. destruct (headers options) as [h|]; [|discriminate].
    rewrite get_assign. now destruct (get (rev h) "date"). }
  destruct (body options); simpl;
    destruct (stsToken config) as [token|]; try exact D;
    destruct (token =? ""); exact D.
Qed.

(** X7.  When the caller's header names are in lower case and the
    request is a GET or has no query parameters, the two builders send
    the same method, body and headers, signature included; their URLs
    differ in the scheme only. *)
Theorem builders_agree (date : string) (config : RequestConfig)
    (options : RequestOptions) :
  (forall h, headers options = Some h ->
             Forall (fun k => toLowerCase k = k) (keys h)) ->
  method options = GET \/ queries options = None \/ queries options = Some [] ->
  req_headers (Axios.do_request date config options)
  = req_headers (Fetch.do_request date config options)
  /\ req_method (Axios.do_request date config options)
     = req_method (Fetch.do_request date config options)
  /\ req_body (Axios.do_request date config options)
     = req_body (Fetch.do_request date config options)
  /\ exists rest,
       req_url (Axios.do_request date config options) = "http://" ++ rest
       /\ req_url (Fetch.do_request date config options) = "https://" ++ rest.
Proof.
  intros L M. split; [|split; [reflexivity|split; [reflexivity|]]].
  - rewrite axios_headers, fetch_headers. f_equal.
    unfold Axios.sign, Fetch.sign.
    rewrite (axios_signString_lower _ _ _ (lower_unsigned date config options L)
               (date_unsigned date config options)).
    do 3 f_equal. unfold Fetch.resourceOf.
    destruct M as [-> | [-> | ->]].
    + now destruct (queries options).
    + now destruct (method options).
    + now destruct (method options).
  - eexists. split; reflexivity.
Qed.

(** X8.  A header the caller gives under a name the exchange does not
    write itself is sent with the caller's value. *)
Theorem caller_headers_are_sent (date : string) (config : RequestConfig)
    (options : RequestOptions) (h : object string) (k v : string) :
  headers options = Some h -> wf h -> get h k = Some v ->
  k <> "authorization" -> k <> "content-length" -> k <> "content-md5" ->
  k <> "x-acs-security-token" ->
  get (req_headers (Fetch.do_request date config options)) k = Some v
  /\ get (req_headers (Axios.do_request date config options)) k = Some v.
Proof.
  intros E W G N1 N2 N3 N4.
  assert (U : get (unsigned date config options) k = Some v).
  { rewrite get_withBody, get_withToken. unfold mergeHeaders. rewrite E.
    rewrite get_assign, (get_rev_wf _ _ W), G.
    apply not_eq_sym, String.eqb_neq in N2, N3, N4. rewrite N4.
    destruct (body options); [rewrite N2, N3|];
      destruct (stsToken config) as [token|]; try reflexivity;
      destruct (token =? ""); reflexivity. }
  split.
  - rewrite (get_request_headers date config options _ k (or_introl eq_refl)) by exact N1.
    exact U.
  - rewrite (get_request_headers date config options _ k (or_intror eq_refl)) by exact N1.
    exact U.
Qed.

Context `{Client.Protobuf}.

(** X9.  The request [putLogs] makes, in either builder, when the
    payload can be encoded: a POST of the encoded payload, of content
    type [application/x-protobuf], whose [x-log-bodyrawsize] and
    [content-length] both give the length of the encoding, whose
    [content-md5] is the digest of the encoding, and whose signed
    resource is the path, without a query.  When the encoder throws,
    [putLogs] throws the same and makes no request. *)
Theorem putLogs_request (date : string) (config : RequestConfig)
    (clock : nat -> Z) (projectName logstoreName : string)
    (data : Client.LogData) (requestOptions : option SafeRequestOptions) :
  match Client.encode (Client.toPayload clock data) with
  | Return payload =>
      exists options,
        Client.putLogs clock projectName logstoreName data requestOptions
        = Return options
        /\ Forall
             (fun request =>
                req_method request = POST
                /\ req_body request = Some payload
                /\ get (req_headers request) "content-type"
                   = Some "application/x-protobuf"
                /\ get (req_headers request) "x-log-bodyrawsize"
                   = Some (numberToString (Z.of_nat (List.length payload)))
                /\ get (req_headers request) "content-length"
                   = get (req_headers request) "x-log-bodyrawsize"
                /\ get (req_headers request) "content-md5"
                   = Some (toUpperCase (Enc.Hex (MD5 payload))))
             [Fetch.do_request date config options;
              Axios.do_request date config options]
        /\ Fetch.resourceOf options = "/logstores/" ++ logstoreName ++ "/shards/lb"
        /\ formatResource (path options) (queries options)
           = "/logstores/" ++ logstoreName ++ "/shards/lb"
  | Throw e =>
      Client.putLogs clock projectName logstoreName data requestOptions = Throw e
  end.
Proof.
  unfold Client.putLogs.
  destruct (Client.encode (Client.toPayload clock data)) as [payload|e];
    cbn [bind]; [|reflexivity].
  eexists. split; [reflexivity|].
  match goal with |- Forall _ [Fetch.do_request _ _ ?o; _] /\ _ => set (options := o) end.
  assert (T : forall k (x : option string),
             ("x-acs-security-token" =? k) = false ->
             match stsToken config with
             | Some token =>
                 if token =? "" then x
                 else if "x-acs-security-token" =? k then Some token else x
             | None => x
             end = x).
  { intros k x E. destruct (stsToken config) as [token|]; [|reflexivity].
    rewrite E. now destruct (token =? ""). }
  assert (P : forall request,
             request = Fetch.do_request date config options
             \/ request = Axios.do_request date config options ->
             req_method request = POST
             /\ req_body request = Some payload
             /\ get (req_headers request) "content-type" = Some "application/x-protobuf"
             /\ get (req_headers request) "x-log-bodyrawsize"
                = Some (numberToString (Z.of_nat (List.length payload)))
             /\ get (req_headers request) "content-length"
                = get (req_headers request) "x-log-bodyrawsize"
             /\ get (req_headers request) "content-md5"
                = Some (toUpperCase (Enc.Hex (MD5 payload)))).
  { intros request R.
    assert (G : forall k, k <> "authorization" ->
                          get (req_headers request) k
                          = get (unsigned date config options) k).
    { intros k N. apply get_request_headers; [|exact N].
      destruct R as [-> | ->]; [now left|now right]. }
    split; [now destruct R as [-> | ->]|]. split; [now destruct R as [-> | ->]|].
    rewrite !G by discriminate. rewrite !get_withBody, !get_withToken.
    cbn [body options].
    rewrite !T by reflexivity.
    repeat split. }
  split; [|split; reflexivity].
  constructor; [apply P; now left|].
  constructor; [apply P; now right|constructor].
Qed.

End WholeRequest.

(** ** Timeouts and failures of the exchange *)

Section Failures.

Import Js Request.



(** X11.  The fetch-based exchange never throws an error named
    [AbortError]: an aborted [fetch] comes out as the timeout error, and
    a rejection under any other name is thrown as it is. *)
Theorem abort_is_timeout (r : Fetch.settled) (e : exn) :
  (Fetch.do_response r = Throw e -> errorName e <> "AbortError")
  /\ (r = Fetch.Rejected e -> errorName e = "AbortError" ->
      Fetch.do_response r = Throw TimeoutError)
  /\ (r = Fetch.Rejected e -> errorName e <> "AbortError" ->
      Fetch.do_response r = Throw e).
Proof.
  split; [|split].
  - unfold Fetch.do_response, tryCatch.
    match goal with |- match ?c with _ => _ end = _ -> _ => destruct c as [a|e0] end;
      [discriminate|].
    intros [= <-]. unfold Fetch.onError.
    destruct (errorName e0 =? "AbortError") eqn:E; [discriminate|].
    now apply String.eqb_neq.
  - intros -> N. unfold Fetch.do_response, tryCatch, Fetch.onError.
    now rewrite N.
  - intros -> N. unfold Fetch.do_response, tryCatch, Fetch.onError.
    now apply String.eqb_neq in N as ->.
Qed.

Lemma abort_is_timeout_witness :
  Fetch.do_response (Fetch.Rejected (TransportError "AbortError")) = Throw TimeoutError
  /\ Fetch.do_response (Fetch.Rejected (TransportError "TypeError"))
     = Throw (TransportError "TypeError").
Proof.
  split.
  - apply (proj1 (proj2 (abort_is_timeout _ (TransportError "AbortError"))));
      reflexivity.
  - apply (proj2 (proj2 (abort_is_timeout _ (TransportError "TypeError"))));
      [reflexivity|discriminate].
Defined.





End Failures.

(** ** Rounding in the nanosecond part *)

Module RoundingFacts.

Import Double DoubleFacts.
Local Open Scope Z_scope.

Lemma roundDiv_bounds n d :
  0 <= n -> 0 < d ->
  2 * Z.abs (roundDiv n d * d - n) <= d /\ 0 <= roundDiv n d.
Proof.
  intros N D. unfold roundDiv.
  pose proof (Z.div_mod n d ltac:(lia)) as E.
  pose proof (Z.mod_pos_bound n d D) as R.
  assert (Q : 0 <= n / d) by (apply Z.div_pos; lia).
  destruct (Z.ltb_spec (2 * (n mod d)) d);
    [|destruct (Z.ltb_spec d (2 * (n mod d))); [|destruct (Z.even (n / d))]];
    split; nia.
Qed.

(** A double is never negative when the integer it rounds is not. *)
Lemma round_nonneg n : 0 <= n -> 0 <= round n.
Proof.
  intros N. unfold round.
  destruct (Z.leb_spec (Z.log2 (Z.abs n) - 52) 0) as [|S]; [exact N|].
  assert (P : 0 < 2 ^ (Z.log2 (Z.abs n) - 52)) by (apply Z.pow_pos_nonneg; lia).
  pose proof (roundDiv_bounds (Z.abs n) _ (Z.abs_nonneg n) P) as [_ Q].
  pose proof (Z.sgn_nonneg n) as G. nia.
Qed.

(** Below 2^61 a double is within 128 of the integer it rounds. *)
Lemma round_error n : 0 <= n < 2 ^ 61 -> Z.abs (round n - n) <= 128.
Proof.
  intros [N U]. unfold round. rewrite !(Z.abs_eq n) by exact N.
  destruct (Z.leb_spec (Z.log2 n - 52) 0) as [|S]; [lia|].
  assert (N0 : 0 < n).
  { destruct (Z.eq_dec n 0) as [->|]; [simpl in S; lia|lia]. }
  assert (L : Z.log2 n < 61) by (apply Z.log2_lt_pow2; lia).
  set (e := Z.log2 n - 52) in *.
  assert (P : 0 < 2 ^ e) by (apply Z.pow_pos_nonneg; lia).
  assert (D : 2 ^ e <= 2 ^ 8) by (apply Z.pow_le_mono_r; lia).
  change (2 ^ 8) with 256 in D.
  pose proof (roundDiv_bounds n (2 ^ e) N P) as [B _].
  rewrite Z.sgn_pos by exact N0.
  set (x := roundDiv n (2 ^ e) * 2 ^ e) in *. set (d := 2 ^ e) in *. lia.
Qed.

(** A double is at most twice the integer it rounds. *)
Lemma round_upper n : 0 <= n -> round n <= 2 * n.
Proof.
  intros N. unfold round. rewrite !(Z.abs_eq n) by exact N.
  destruct (Z.leb_spec (Z.log2 n - 52) 0) as [|S]; [lia|].
  assert (N0 : 0 < n).
  { destruct (Z.eq_dec n 0) as [->|]; [simpl in S; lia|lia]. }
  set (e := Z.log2 n - 52) in *.
  assert (P : 0 < 2 ^ e) by (apply Z.pow_pos_nonneg; lia).
  assert (D : 2 ^ e <= n).
  { apply Z.le_trans with (2 ^ Z.log2 n);
      [apply Z.pow_le_mono_r; lia|apply Z.log2_spec; exact N0]. }
  pose proof (roundDiv_bounds n (2 ^ e) N P) as [B _].
  rewrite Z.sgn_pos by exact N0.
  set (x := roundDiv n (2 ^ e) * 2 ^ e) in *. set (d := 2 ^ e) in *. lia.
Qed.

(** The two products of [splitTimestamp] stay finite for a time below
    2^53. *)
Lemma products_finite time :
  0 <= time < 2 ^ 53 ->
  exists p, mul (mul time 1000) 1000 = Num p /\ 0 <= p.
Proof.
  intros [L U].
  assert (U1 : time * 1000 < 2 ^ 63)
    by (change (2 ^ 53) with 9007199254740992 in U;
        change (2 ^ 63) with 9223372036854775808; lia).
  pose proof (round_nonneg (time * 1000) ltac:(lia)) as P1.
  pose proof (round_upper (time * 1000) ltac:(lia)) as Q1.
  set (r := round (time * 1000)) in *.
  assert (U2 : r * 1000 < 2 ^ 74)
    by (change (2 ^ 63) with 9223372036854775808 in U1;
        change (2 ^ 74) with 18889465931478580854784; lia).
  pose proof (round_nonneg (r * 1000) ltac:(lia)) as P2.
  pose proof (round_upper (r * 1000) ltac:(lia)) as Q2.
  assert (F1 : Z.abs r < 2 ^ 1024).
  { apply Z.lt_trans with (2 ^ 75); [|reflexivity].
    change (2 ^ 63) with 9223372036854775808 in U1;
    change (2 ^ 75) with 37778931862957161709568; lia. }
  assert (F2 : Z.abs (round (r * 1000)) < 2 ^ 1024).
  { apply Z.lt_trans with (2 ^ 75); [|reflexivity].
    change (2 ^ 74) with 18889465931478580854784 in U2;
    change (2 ^ 75) with 37778931862957161709568; lia. }
  rewrite (mul_finite time 1000 F1). fold r.
  rewrite (mul_finite r 1000 F2).
  now exists (round (r * 1000)).
Qed.

End RoundingFacts.

(** ** client.ts: what is written and what is asked *)

Section ClientRequests.

Import Js Request Client ObjectFacts SetFacts DoubleFacts RoundingFacts.
Local Open Scope Z_scope.

Lemma nanoseconds_range (now : Z) (t : option Z) :
  Z.abs now < 2 ^ 53 ->
  (forall x, t = Some x -> Z.abs x < 2 ^ 53) ->
  exists n, nanoseconds (splitTimestamp now t) = Double.Num n
            /\ 0 <= n < 10 ^ 9.
Proof.
  intros Bn Bt. unfold splitTimestamp. change (10 ^ 9) with 1000000000.
  set (time := match t with Some t0 => if t0 =? 0 then now else t0 | None => now end).
  assert (B : Z.abs time < 2 ^ 53).
  { unfold time. destruct t as [x|]; [|exact Bn].
    destruct (x =? 0); [exact Bn|now apply Bt]. }
  destruct (Z.ltb_spec time 1000000000000) as [|G]; cbn [nanoseconds].
  - exists 0. split; [reflexivity|lia].
  - destruct (products_finite time ltac:(lia)) as [p [E P]].
    unfold Double.floor. rewrite E, rem_Num by discriminate.
    exists (Z.rem p 1000000000). split; [reflexivity|].
    apply Z.rem_bound_pos; lia.
Qed.

(** Far beyond, the product overflows and the nanoseconds are [NaN]. *)
Example nanoseconds_overflow :
  nanoseconds (splitTimestamp 0 (Some (2 ^ 1023))) = Double.NaN
  /\ seconds (splitTimestamp 0 (Some (2 ^ 1023))) = 1152921504606847 * 2 ^ 963.
Proof. vm_compute. split; reflexivity. Qed.

(** X13.  For a clock and a timestamp that are integers below 2^53 in
    magnitude, the nanoseconds [splitTimestamp] returns are a number,
    at least 0 and below 10^9; in a log entry the nanosecond field is
    the caller's nanosecond part when that is given and not 0, and is
    such a number otherwise. *)
Theorem nanoseconds_in_range (now : Z) (log : LogEntity) :
  Z.abs now < 2 ^ 53 ->
  (forall t, timestamp log = Some t -> Z.abs t < 2 ^ 53) ->
  (exists n, nanoseconds (splitTimestamp now (timestamp log)) = Double.Num n
             /\ 0 <= n < 10 ^ 9)
  /\ match timestampNsPart log with
     | Some 0 | None =>
         exists n, TimeNs (toLog now log) = Double.Num n /\ 0 <= n < 10 ^ 9
     | Some ns => TimeNs (toLog now log) = ns
     end.
Proof.
  intros Bn Bt.
  split; [now apply nanoseconds_range|].
  unfold toLog. destruct (timestampNsPart log) as [[| |]|]; cbn [TimeNs Z.eqb];
    try reflexivity; now apply nanoseconds_range.
Qed.

Lemma nanoseconds_in_range_witness :
  exists n, TimeNs (toLog 1700000000123 Sample.logZero) = Double.Num n
            /\ 0 <= n < 10 ^ 9.
Proof.
  refine (proj2 (nanoseconds_in_range 1700000000123 Sample.logZero _ _)).
  - simpl. lia.
  - intros t [= <-]. simpl. lia.
Defined.

(** X14.  For a timestamp in milliseconds up to 2305843009213 (the year
    2043) the nanoseconds are those of [t * 10^6] up to an error of at
    most 128, the rounding of the product to a double. *)
Theorem nanoseconds_error (now t : Z) :
  10 ^ 12 <= t <= 2305843009213 ->
  exists d, Z.abs d <= 128
            /\ nanoseconds (splitTimestamp now (Some t))
               = (t * 1000000 + d) mod 10 ^ 9.
Proof.
  change (10 ^ 12) with 1000000000000. change (10 ^ 9) with 1000000000.
  intros [L U]. unfold splitTimestamp.
  destruct (Z.eqb_spec t 0) as [|_]; [lia|].
  destruct (Z.ltb_spec t 1000000000000) as [|_]; [lia|]. cbn [nanoseconds].
  unfold Double.floor.
  rewrite mul_small by (change (2 ^ 53) with 9007199254740992; lia).
  replace (t * 1000 * 1000) with (t * 1000000) by lia.
  assert (B : 0 <= t * 1000000 < 2 ^ 61)
    by (change (2 ^ 61) with 2305843009213693952; lia).
  pose proof (round_error _ B) as E. pose proof (round_nonneg _ (proj1 B)) as P.
  assert (F : Z.abs (Double.round (t * 1000 * 1000)) < 2 ^ 1024).
  { replace (t * 1000 * 1000) with (t * 1000000) by lia.
    apply Z.lt_trans with (2 ^ 62); [|reflexivity].
    change (2 ^ 61) with 2305843009213693952 in B.
    change (2 ^ 62) with 4611686018427387904. lia. }
  rewrite (mul_finite (t * 1000) 1000 F).
  replace (t * 1000 * 1000) with (t * 1000000) by lia.
  exists (Double.round (t * 1000000) - t * 1000000). split; [exact E|].
  rewrite rem_Num by discriminate. rewrite Z.rem_mod_nonneg by lia.
  do 2 f_equal. lia.
Qed.

Lemma nanoseconds_error_witness :
  10 ^ 12 <= 1700000000001 <= 2305843009213
  /\ exists d, Z.abs d <= 128
               /\ nanoseconds (splitTimestamp 0 (Some 1700000000001))
                  = (1700000000001 * 1000000 + d) mod 10 ^ 9.
Proof.
  assert (B : 10 ^ 12 <= 1700000000001 <= 2305843009213) by (simpl; lia).
  split; [exact B|]. exact (nanoseconds_error 0 1700000000001 B).
Defined.

(** X15.  A timestamp of whole seconds splits in the same way whether
    it is given in seconds or in milliseconds, from 10^9 seconds (the
    year 2001) to 4611686017 seconds (the year 2116). *)
Theorem seconds_and_milliseconds_agree (now s : Z) :
  10 ^ 9 <= s < 4611686018 ->
  splitTimestamp now (Some (1000 * s)) = {| seconds := s; nanoseconds := 0 |}
  /\ splitTimestamp now (Some s) = {| seconds := s; nanoseconds := 0 |}.
Proof.
  change (10 ^ 9) with 1000000000. intros [L U]. unfold splitTimestamp.
  destruct (Z.eqb_spec (1000 * s) 0) as [|_]; [lia|].
  destruct (Z.eqb_spec s 0) as [|_]; [lia|].
  destruct (Z.ltb_spec (1000 * s) 1000000000000) as [|_]; [lia|].
  destruct (Z.ltb_spec s 1000000000000) as [_|]; [|lia].
  split; [|reflexivity]. f_equal.
  - rewrite floorDiv_1000 by (change (2 ^ 53) with 9007199254740992; lia).
    rewrite Z.mul_comm. apply Z.div_mul. lia.
  - unfold Double.floor.
    rewrite mul_small by (change (2 ^ 53) with 9007199254740992; lia).
    assert (X : Double.exact (1000 * s * 1000 * 1000)).
    { replace (1000 * s * 1000 * 1000) with ((s * 1953125) * 2 ^ 9)
        by (change (2 ^ 9) with 512; lia).
      apply exact_shift; [change (2 ^ 53) with 9007199254740992; lia|lia]. }
    rewrite (mul_exact (1000 * s * 1000) 1000 X)
      by (apply Z.lt_trans with (2 ^ 63); [|reflexivity];
          change (2 ^ 63) with 9223372036854775808; lia).
    rewrite rem_Num by discriminate. f_equal.
    replace (1000 * s * 1000 * 1000) with (s * 1000000000) by lia.
    apply Z.rem_mul. lia.
Qed.

Lemma seconds_and_milliseconds_agree_witness :
  splitTimestamp 0 (Some (1000 * 1700000000))
  = splitTimestamp 0 (Some 1700000000).
Proof.
  destruct (seconds_and_milliseconds_agree 0 1700000000) as [A B];
    [simpl; lia|].
  now rewrite A, B.
Defined.

End ClientRequests.

(** ** client.ts: the payload and the query *)

Section PayloadAndQuery.

Import Js Request Client ObjectFacts SetFacts DoubleFacts.

(** X16.  The payload of [putLogs] has one log per entry, in the order
    of the entries, the entry of index [i] being stamped with the
    [i]-th reading of the clock; the contents of a log are the
    properties of the entry in their order; the topic and the source
    are never the empty string; there are tags exactly when the list of
    tags is not empty, and then they are the properties of all the tag
    mappings, the first one included, in the order of the list and,
    within a mapping, of its properties. *)
Theorem payload_shape (clock : nat -> Z) (data : LogData) :
  List.length (Logs (toPayload clock data)) = List.length (logs data)
  /\ (forall i log,
        nth_error (logs data) i = Some log ->
        nth_error (Logs (toPayload clock data)) i = Some (toLog (clock i) log))
  /\ (forall now log,
        map (fun c => (Key c, Value c)) (Contents (toLog now log)) = content log)
  /\ Topic (toPayload clock data) <> Some ""
  /\ Source (toPayload clock data) <> Some ""
  /\ (LogTags (toPayload clock data) = None
      <-> tags data = None \/ tags data = Some [])
  /\ (forall ts, tags data = Some ts -> ts <> [] ->
        exists l,
          LogTags (toPayload clock data) = Some l
          /\ map (fun tag => (TagKey tag, TagValue tag)) l = List.concat ts).
Proof.
  unfold toPayload. cbn [Logs Topic Source LogTags].
  split; [apply toLogs_length|].
  split; [intros i log E; now rewrite (toLogs_nth clock 0 _ i log E)|].
  split.
  { intros now log. unfold toLog, entries. cbn [Contents].
    rewrite map_map. cbn [Key Value].
    induction (content log) as [|[k v] c IH]; simpl; congruence. }
  split.
  { destruct (topic data) as [t|]; [|discriminate].
    destruct (t =? "") eqn:E; [discriminate|].
    apply String.eqb_neq in E. congruence. }
  split.
  { destruct (source data) as [s|]; [|discriminate].
    destruct (s =? "") eqn:E; [discriminate|].
    apply String.eqb_neq in E. congruence. }
  split.
  { destruct (tags data) as [[|tag ts]|]; split; intros E;
      try reflexivity; try (now left); try (now right);
      try discriminate; destruct E as [E|E]; discriminate. }
  intros ts -> N. destruct ts as [|tag ts]; [contradiction|].
  eexists. split; [reflexivity|].
  clear N. generalize (tag :: ts). clear tag ts.
  intros ts. unfold entries.
  induction ts as [|tag ts IH]; [reflexivity|].
  cbn [flat_map List.concat]. rewrite map_app, IH. f_equal.
  rewrite map_map. cbn [TagKey TagValue].
  clear IH. induction tag as [|[k v] tag IH]; simpl; congruence.
Qed.

Lemma payload_shape_witness :
  nth_error [Sample.logZero; Sample.logZero] 1 = Some Sample.logZero
  /\ nth_error
       (Logs (toPayload (fun i => Z.of_nat i)
                {| logs := [Sample.logZero; Sample.logZero];
                   tags := Some [[("host", "a")]; [("env", "b"); ("zone", "c")]];
                   topic := Some ""; source := None |})) 1
     = Some (toLog 1%Z Sample.logZero)
  /\ exists l,
       LogTags (toPayload (fun i => Z.of_nat i)
                  {| logs := [Sample.logZero; Sample.logZero];
                     tags := Some [[("host", "a")]; [("env", "b"); ("zone", "c")]];
                     topic := Some ""; source := None |})
       = Some l
       /\ map (fun tag => (TagKey tag, TagValue tag)) l
          = [("host", "a"); ("env", "b"); ("zone", "c")].
Proof.
  destruct (payload_shape (fun i => Z.of_nat i)
              {| logs := [Sample.logZero; Sample.logZero];
                 tags := Some [[("host", "a")]; [("env", "b"); ("zone", "c")]];
                 topic := Some ""; source := None |})
    as [_ [L [_ [_ [_ [_ T]]]]]].
  split; [reflexivity|]. split.
  - exact (L 1%nat Sample.logZero eq_refl).
  - exact (T _ eq_refl ltac:(discriminate)).
Defined.

Local Open Scope Z_scope.

(** X17.  The request of [getLogs] is a GET without body and without
    headers of its own, whose query parameters have pairwise distinct
    names, hold [from] and [to] in seconds (a bound given in
    milliseconds is divided by 1000), hold [type=log] unless the query
    gives a type, and hold every other parameter of the query as it was
    given. *)
Theorem getLogs_request (now : Z) (projectName logstoreName : string)
    (query : object value) (requestOptions : option SafeRequestOptions) :
  let options := getLogs now projectName logstoreName query requestOptions in
  method options = GET /\ body options = None /\ headers options = None
  /\ exists q,
       queries options = Some q
       /\ wf q
       /\ get q "from"
          = Some (VNumber (seconds (splitTimestamp now (numberAt query "from"))))
       /\ get q "to"
          = Some (VNumber (seconds (splitTimestamp now (numberAt query "to"))))
       /\ (forall k t, k = "from"%string \/ k = "to"%string ->
                       numberAt query k = Some t -> 10 ^ 12 <= t < 2 ^ 53 ->
                       get q k = Some (VNumber (t / 1000)))
       /\ (forall k t, k = "from"%string \/ k = "to"%string ->
                       numberAt query k = Some t -> t <> 0 -> t < 10 ^ 12 ->
                       get q k = Some (VNumber t))
       /\ (get query "type" = None -> get q "type" = Some (VString "log"))
       /\ (forall k v, wf query -> get query k = Some v ->
                       k <> "from"%string -> k <> "to"%string ->
                       get q k = Some v).
Proof.
  intros options. repeat split.
  unfold options, getLogs. cbn [queries].
  eexists. split; [reflexivity|].
  assert (S : forall t, 10 ^ 12 <= t < 2 ^ 53 ->
                        seconds (splitTimestamp now (Some t)) = t / 1000).
  { intros t [L U]. change (10 ^ 12) with 1000000000000 in L.
    unfold splitTimestamp.
    destruct (Z.eqb_spec t 0); [lia|].
    destruct (Z.ltb_spec t 1000000000000); [lia|]. simpl.
    apply floorDiv_1000. lia. }
  assert (S' : forall t, t <> 0 -> t < 10 ^ 12 ->
                         seconds (splitTimestamp now (Some t)) = t).
  { intros t N L. change (10 ^ 12) with 1000000000000 in L.
    unfold splitTimestamp.
    destruct (Z.eqb_spec t 0); [lia|].
    now destruct (Z.ltb_spec t 1000000000000); [|lia]. }
  split; [|split; [|split; [|split; [|split; [|split]]]]].
  - apply wf_set, wf_set, wf_assign. repeat constructor. intros [].
  - now rewrite get_set_other, get_set_same by discriminate.
  - now rewrite get_set_same.
  - intros k t [-> | ->] E B.
    + rewrite get_set_other, get_set_same by discriminate.
      now rewrite E, (S t B).
    + rewrite get_set_same. now rewrite E, (S t B).
  - intros k t [-> | ->] E N B.
    + rewrite get_set_other, get_set_same by discriminate.
      now rewrite E, (S' t N B).
    + rewrite get_set_same. now rewrite E, (S' t N B).
  - intros T. rewrite !get_set_other by discriminate.
    now rewrite get_assign, (get_None_rev _ _ T).
  - intros k v W G N1 N2. rewrite !get_set_other by congruence.
    now rewrite get_assign, (get_rev_wf _ _ W), G.
Qed.

Lemma getLogs_request_witness :
  numberAt [("from", VNumber 1700000000000); ("to", VNumber 1700000600)]%string "from"
  = Some 1700000000000
  /\ 10 ^ 12 <= 1700000000000 < 2 ^ 53
  /\ formatResource "/logstores/app"
       (queries (getLogs 0 "project" "app"
                   [("from", VNumber 1700000000000); ("to", VNumber 1700000600)]%string
                   None))
     = "/logstores/app?from=1700000000&to=1700000600&type=log"%string.
Proof.
  split; [reflexivity|]. split; [simpl; lia|].
  destruct (getLogs_request 0 "project" "app"
              [("from", VNumber 1700000000000); ("to", VNumber 1700000600)]%string
              None) as [_ [_ [_ [q [E _]]]]].
  rewrite E. injection E as <-. reflexivity.
Defined.

End PayloadAndQuery.

(** ** Values and defaults of the headers *)

Section HeaderValues.

Import Js Request ObjectFacts SetFacts ExchangeFacts.

Lemma trimEnd_idem s : trimEnd (trimEnd s) = trimEnd s.
Proof.
  induction s as [|c s IH]; simpl; [reflexivity|].
  destruct (isWhiteSpace c && (trimEnd s =? "")) eqn:E; [reflexivity|].
  simpl. now rewrite IH, E.
Qed.

Lemma trimStart_fixed s :
  match s with
  | EmptyString => True
  | String c _ => isWhiteSpace c = false
  end -> trimStart (trimEnd s) = trimEnd s.
Proof.
  destruct s as [|c s]; simpl; [reflexivity|].
  intros W. rewrite W. simpl. now rewrite W.
Qed.

Lemma trimStart_head s :
  match trimStart s with
  | EmptyString => True
  | String c _ => isWhiteSpace c = false
  end.
Proof.
  induction s as [|c s IH]; simpl; [exact I|].
  destruct (isWhiteSpace c) eqn:E; [exact IH|exact E].
Qed.

Lemma trim_idem s : trim (trim s) = trim s.
Proof.
  unfold trim. rewrite (trimStart_fixed _ (trimStart_head s)).
  apply trimEnd_idem.
Qed.

Lemma get_map_values (f : string -> string) (headers : object string) key :
  get (map (fun kv => (fst kv, f (snd kv))) headers) key
  = option_map f (get headers key).
Proof.
  induction headers as [|[k v] headers IH]; simpl; [reflexivity|].
  now destruct (k =? key).
Qed.

Lemma keys_map_values (f : string -> string) (headers : object string) :
  keys (map (fun kv => (fst kv, f (snd kv))) headers) = keys headers.
Proof. unfold keys. rewrite map_map. reflexivity. Qed.

(** X18.  The canonicalized headers of either builder do not see the
    white space around a header's value: trimming the values beforehand
    changes nothing. *)
Theorem canonicalized_headers_trimmed (headers : object string) :
  Fetch.getCanonicalizedHeaders (map (fun kv => (fst kv, trim (snd kv))) headers)
  = Fetch.getCanonicalizedHeaders headers
  /\ Axios.getCanonicalizedHeaders (map (fun kv => (fst kv, trim (snd kv))) headers)
     = Axios.getCanonicalizedHeaders headers.
Proof.
  assert (A : forall key,
             trim (at_ (map (fun kv => (fst kv, trim (snd kv))) headers) key)
             = trim (at_ headers key)).
  { intros key. unfold at_. rewrite get_map_values.
    destruct (get headers key); simpl; [apply trim_idem|reflexivity]. }
  unfold Fetch.getCanonicalizedHeaders, Axios.getCanonicalizedHeaders.
  rewrite keys_map_values. split.
  - destruct (sort _); [reflexivity|].
    f_equal. apply map_ext. intros key. now rewrite A.
  - f_equal. apply map_ext. intros key. now rewrite A.
Qed.

Context `{CryptoJS} `{Qs}.

(** X19.  Every outgoing request, of either builder, has a
    [content-type], a [date], an [x-log-apiversion] and an
    [x-log-signaturemethod] header, whatever headers the caller gives:
    the caller can replace their values, not remove them. *)
Theorem default_headers_present (date : string) (config : RequestConfig)
    (options : RequestOptions) (k : string) :
  In k ["content-type"; "date"; "x-log-apiversion"; "x-log-signaturemethod"] ->
  get (req_headers (Fetch.do_request date config options)) k <> None
  /\ get (req_headers (Axios.do_request date config options)) k <> None.
Proof.
  intros I.
  assert (D : get (mergeHeaders date (headers options)) k <> None).
  { unfold mergeHeaders. destruct (headers options) as [h|].
    - rewrite get_assign. destruct (get (rev h) k); [discriminate|].
      simpl in I. intuition (subst; discriminate).
    - simpl in I. intuition (subst; discriminate). }
  assert (U : get (withBody (body options)
                     (withToken config (mergeHeaders date (headers options)))) k
              <> None).
  { rewrite get_withBody, get_withToken.
    destruct (body options); [destruct ("content-md5" =? k); [discriminate|];
                               destruct ("content-length" =? k); [discriminate|]|];
      destruct (stsToken config) as [token|]; try exact D;
      destruct (token =? ""); try exact D;
      destruct ("x-acs-security-token" =? k); (discriminate || exact D). }
  assert (N : k <> "authorization")
    by (simpl in I; intuition (subst; discriminate)).
  split.
  - now rewrite (get_request_headers date config options _ k (or_introl eq_refl) N).
  - now rewrite (get_request_headers date config options _ k (or_intror eq_refl) N).
Qed.

End HeaderValues.

(** ** Concrete runs of the further properties *)

Module MoreRuns.

Import Js Request CryptoJSLib QsLib.

Lemma signature_covers_no_other_header_witness :
  Fetch.sign Sample.config "POST" "/logstores/app"
    (set (defaultHeaders Sample.date) "Content-Length" "42")
  = Fetch.sign Sample.config "POST" "/logstores/app" (defaultHeaders Sample.date).
Proof.
  refine (proj2 (signature_covers_no_other_header Sample.config "POST" "/logstores/app"
                   (defaultHeaders Sample.date) "Content-Length" "42" _ _ _ _ _));
    (discriminate || reflexivity).
Defined.

Lemma builders_agree_witness :
  method Sample.postOptions = POST /\ queries Sample.postOptions = None
  /\ req_headers (Axios.do_request Sample.date Sample.config Sample.postOptions)
     = req_headers (Fetch.do_request Sample.date Sample.config Sample.postOptions).
Proof.
  split; [reflexivity|]. split; [reflexivity|].
  refine (proj1 (builders_agree Sample.date Sample.config Sample.postOptions _ _)).
  - intros h E. injection E as <-. repeat constructor.
  - right. left. reflexivity.
Defined.

Lemma caller_headers_are_sent_witness :
  get (req_headers (Fetch.do_request Sample.date Sample.config Sample.postOptions))
    "x-log-bodyrawsize" = Some "4".
Proof.
  refine (proj1 (caller_headers_are_sent Sample.date Sample.config Sample.postOptions
                   [("x-log-bodyrawsize", "4"); ("content-type", "application/x-protobuf")]
                   "x-log-bodyrawsize" "4" eq_refl _ eq_refl _ _ _ _));
    try discriminate.
  repeat constructor; simpl; intuition discriminate.
Defined.

Lemma default_headers_present_witness :
  get (req_headers (Fetch.do_request Sample.date Sample.config Sample.overridden))
    "x-log-apiversion" <> None.
Proof.
  refine (proj1 (default_headers_present Sample.date Sample.config Sample.overridden
                   "x-log-apiversion" _)).
  right. right. left. reflexivity.
Defined.

End MoreRuns.
